(** * BuildByStrategy: the strategy-based admission gate

    A shallow embedding of
    [pkg/build/admission/strategyrestrictions/admission.go] and the
    properties of its decision logic.

    Go packages become modules holding the struct types the gate reads;
    the gate itself lives in [Section Gate].  Pointers that the code tests
    against [nil] are [option]s.  The two injected clients are functions over
    an arbitrary world [W]; every call through them is recorded in a trace, so
    that "the reviewer was not invoked" is a statement about the trace. *)

From Stdlib Require Import String Ascii List Bool Arith ZArith Lia.
Import ListNotations.
Local Open Scope string_scope.

(** ** The imported data types *)

Module schema.
Record GroupResource : Type := MkGroupResource
  { Group : string; Resource : string }.

Record GroupVersionResource : Type := MkGroupVersionResource
  { gvrGroup : string; gvrVersion : string; gvrResource : string }.

(** [func (gvr GroupVersionResource) GroupResource() GroupResource] *)
Definition GroupResourceOf (gvr : GroupVersionResource) : GroupResource :=
  {| Group := gvrGroup gvr; Resource := gvrResource gvr |}.

(** Go's [==] on the struct, as [switch gr { case x: ... }] uses it. *)
Definition eqb (x y : GroupResource) : bool :=
  String.eqb (Group x) (Group y) && String.eqb (Resource x) (Resource y).
End schema.

Module metav1.
Record ObjectMeta : Type := MkObjectMeta
  { Name : string;
    GenerateName : string;
    Namespace : string;
    OwnerReferences : list string;
    Finalizers : list string }.
End metav1.

Module user.
(** [user.Info], read through its getters only. *)
Record Info : Type := MkInfo
  { GetName : string;
    GetGroups : list string;
    GetExtra : list (string * list string) }.
End user.

Module authorization.
Record ResourceAttributes : Type := MkResourceAttributes
  { Namespace : string;
    Verb : string;
    Group : string;
    Resource : string;
    Subresource : string;
    Name : string }.

Record SubjectAccessReviewSpec : Type := MkSpec
  { ResourceAttributesOf : option ResourceAttributes;
    User : string;
    Groups : list string;
    Extra : list (string * list string) }.

Record SubjectAccessReviewStatus : Type := MkStatus
  { Allowed : bool; Reason : string }.

Record SubjectAccessReview : Type := MkSubjectAccessReview
  { Spec : SubjectAccessReviewSpec; Status : SubjectAccessReviewStatus }.
End authorization.

Module buildapi.
(** Only the option the gate inspects is kept of each strategy struct. *)
Record DockerBuildStrategy : Type := MkDocker
  { ImageOptimizationPolicy : option string }.
Record CustomBuildStrategy : Type := MkCustom { }.
Record SourceBuildStrategy : Type := MkSource { }.
Record JenkinsPipelineBuildStrategy : Type := MkJenkins { }.

(** The union-by-optional-pointers of the source: any subset of the four
    fields may be populated. *)
Record BuildStrategy : Type := MkBuildStrategy
  { DockerStrategy : option DockerBuildStrategy;
    CustomStrategy : option CustomBuildStrategy;
    SourceStrategy : option SourceBuildStrategy;
    JenkinsPipelineStrategy : option JenkinsPipelineBuildStrategy }.

(** [Build.Spec.Strategy] and [BuildConfig.Spec.Strategy] are both the
    [Strategy] field of the embedded [CommonSpec]. *)
Record CommonSpec : Type := MkCommonSpec { Strategy : BuildStrategy }.

Record Build : Type := MkBuild
  { ObjectMeta : metav1.ObjectMeta; Spec : CommonSpec }.

Record BuildConfig : Type := MkBuildConfig
  { bcObjectMeta : metav1.ObjectMeta; bcSpec : CommonSpec }.

Record BuildRequest : Type := MkBuildRequest
  { brObjectMeta : metav1.ObjectMeta }.
End buildapi.

Module runtime.
(** [runtime.Object] as the type switch of [Admit] sees it: one of the three
    build kinds, or anything else (named by its kind). *)
Inductive Object : Type :=
| Build (obj : buildapi.Build)
| BuildConfig (obj : buildapi.BuildConfig)
| BuildRequest (obj : buildapi.BuildRequest)
| Other (kind : string).
End runtime.

Module admission.
Inductive Operation : Type := Create | Update | Delete | Connect.

(** [admission.Attributes], read through its getters only.
    [GetOldObject] is [nil] on a create. *)
Record Attributes : Type := MkAttributes
  { GetResource : schema.GroupVersionResource;
    GetSubresource : string;
    GetNamespace : string;
    GetOperation : Operation;
    GetUserInfo : user.Info;
    GetObject : runtime.Object;
    GetOldObject : option runtime.Object }.

(** [admission.Handler]: the operations a plugin declares interest in. *)
Record Handler : Type := MkHandler { operations : list Operation }.

Definition NewHandler (ops : list Operation) : Handler :=
  {| operations := ops |}.
End admission.

(** Go's [error] values, as far as the gate builds or forwards them:
    [fmt.Errorf] with its rendered message, an API status error of a
    collaborator, and the value of [admission.NewForbidden(attr, err)], kept
    as a constructor holding both arguments. *)
Inductive error : Type :=
| Errorf (msg : string)
| StatusError (reason : string) (msg : string)
| NewForbidden (attr : admission.Attributes) (err : error).

(** ** What the source imports from other packages

    Constants of [buildapi] and [bootstrappolicy], the formatting verbs whose
    output depends on other packages, the garbage-collection comparison of
    [rbacregistry], the wire types of [buildv1] and the scheme conversion are
    parameters of the development. *)
Class Imports : Type := MkImports
  { (* buildapi *)
    GroupName : string;
    LegacyGroupName : string;
    ImageOptimizationNone : string;
    (* bootstrappolicy *)
    DockerBuildResource : string;
    OptimizedDockerBuildResource : string;
    CustomBuildResource : string;
    SourceBuildResource : string;
    JenkinsPipelineBuildResource : string;
    (* rbacregistry.IsOnlyMutatingGCFields(obj, old, kapihelper.Semantic) *)
    IsOnlyMutatingGCFields : runtime.Object -> runtime.Object -> bool;
    (* fmt: the verb %#v at a strategy and at an object, %s at a resource *)
    GoSyntaxStrategy : buildapi.BuildStrategy -> string;
    GoSyntaxObject : runtime.Object -> string;
    GroupVersionResourceString : schema.GroupVersionResource -> string;
    (* buildv1 wire objects, and InternalExternalScheme.Convert into a fresh
       internal object: the object as filled in, and the error returned *)
    WireBuild : Type;
    WireBuildConfig : Type;
    ConvertBuild : WireBuild -> buildapi.Build * option error;
    ConvertBuildConfig : WireBuildConfig -> buildapi.BuildConfig * option error }.

(** ** [strings.SplitN] *)

Module strings.
Local Open Scope Z_scope.

(** [strings.Index]: the offset of the first occurrence of [sep] in [s],
    [-1] when there is none. *)
Fixpoint Index (s sep : string) : Z :=
  if String.prefix sep s then 0
  else match s with
       | EmptyString => -1
       | String _ s' => let m := Index s' sep in
                        if m <? 0 then -1 else m + 1
       end.

(** [s[:m]] and [s[m:]] *)
Definition sliceTo (s : string) (m : Z) : string :=
  String.substring 0 (Z.to_nat m) s.
Definition sliceFrom (s : string) (m : Z) : string :=
  String.substring (Z.to_nat m) (String.length s - Z.to_nat m) s.

(** The loop of [genSplit]: at most [pieces] cuts, then the rest. *)
Fixpoint genSplitLoop (pieces : nat) (s sep : string) : list string :=
  match pieces with
  | O => [s]
  | S k =>
      let m := Index s sep in
      if m <? 0 then [s]
      else sliceTo s m
             :: genSplitLoop k (sliceFrom s (m + Z.of_nat (String.length sep))) sep
  end.

(** [strings.SplitN(s, sep, n)] for a non-empty [sep] (the gate passes
    ["/"]): nothing for [n = 0], at most [n] pieces for [n > 0], every piece
    for [n < 0]. *)
Definition SplitN (s sep : string) (n : Z) : list string :=
  if n =? 0 then []
  else if n <? 0 then genSplitLoop (String.length s) s sep
  else genSplitLoop (Z.to_nat (n - 1)) s sep.
End strings.

(** Modelled from the spec: [util.AddUserToSAR] is not under [src/].  The
    reviewer contract of the spec lists the identity beside the namespace,
    verb, group, resource, sub-resource and name of a query, so the helper
    fills in the identity of the requester and leaves the resource attributes
    as its caller built them. *)
Definition AddUserToSAR (u : user.Info) (sar : authorization.SubjectAccessReview)
  : authorization.SubjectAccessReview :=
  {| authorization.Spec :=
       {| authorization.ResourceAttributesOf :=
            authorization.ResourceAttributesOf (authorization.Spec sar);
          authorization.User := user.GetName u;
          authorization.Groups := user.GetGroups u;
          authorization.Extra := user.GetExtra u |};
     authorization.Status := authorization.Status sar |}.

(** [p != nil] *)
Definition notNil {A} (p : option A) : bool :=
  match p with Some _ => true | None => false end.

(** ** The gate *)

(** A call made through one of the two injected clients. *)
Inductive Call : Type :=
| SubjectAccessReviewsCreate (sar : authorization.SubjectAccessReview)
| BuildsGet (namespace name : string)
| BuildConfigsGet (namespace name : string).

Definition isReviewerCall (c : Call) : bool :=
  match c with
  | SubjectAccessReviewsCreate _ => true
  | _ => false
  end.

Section Gate.
Context {I : Imports}.
(** The state of the collaborators (the authorizer and the object store). *)
Context {W : Type}.

(** *** Effects: the world of the collaborators, the trace, and panics *)

Record St : Type := MkSt { world : W; trace : list Call }.

Inductive Outcome (A : Type) : Type :=
| Done (r : A) (s : St)
| Panic (s : St).
Arguments Done {A} r s.
Arguments Panic {A} s.

Definition M (A : Type) : Type := St -> Outcome A.

Definition ret {A} (x : A) : M A := fun s => Done x s.

Definition bind {A B} (m : M A) (k : A -> M B) : M B :=
  fun s => match m s with
           | Done x s' => k x s'
           | Panic s' => Panic s'
           end.

(** A nil dereference or an index out of range. *)
Definition panic {A} : M A := fun s => Panic s.

(** The state an outcome ends in. *)
Definition final {A} (o : Outcome A) : St :=
  match o with Done _ s => s | Panic s => s end.

(** The state after a collaborator served the call [c] and left the world [w]. *)
Definition served (s : St) (w : W) (c : Call) : St :=
  {| world := w; trace := trace s ++ [c] |}.

(** The calls to the permission reviewer in a trace. *)
Definition reviewerCalls (s : St) : list Call := filter isReviewerCall (trace s).

(** [authorizationclient.SubjectAccessReviewInterface]: [Create] returns the
    pair [(result, err)] of the Go method. *)
Definition SubjectAccessReviewInterface : Type :=
  authorization.SubjectAccessReview -> W ->
  (option authorization.SubjectAccessReview * option error) * W.

(** [buildclient.Interface], through the two chains the gate uses:
    [BuildV1().Builds(ns).Get(name, opts)] and
    [BuildV1().BuildConfigs(ns).Get(name, opts)]. *)
Record BuildInterface : Type := MkBuildInterface
  { Builds_Get : string -> string -> W -> (WireBuild * option error) * W;
    BuildConfigs_Get : string -> string -> W -> (WireBuildConfig * option error) * W }.

Record buildByStrategy : Type := MkBuildByStrategy
  { Handler : admission.Handler;
    sarClient : option SubjectAccessReviewInterface;
    buildClient : option BuildInterface }.

(** [a.sarClient.Create(sar)]: a nil client panics. *)
Definition sarClient_Create (a : buildByStrategy)
    (sar : authorization.SubjectAccessReview)
  : M (option authorization.SubjectAccessReview * option error) :=
  match sarClient a with
  | None => panic
  | Some c => fun s =>
      let (r, w) := c sar (world s) in
      Done r (served s w (SubjectAccessReviewsCreate sar))
  end.

(** [a.buildClient.BuildV1().Builds(ns).Get(name, metav1.GetOptions{})] *)
Definition buildClient_Builds_Get (a : buildByStrategy) (ns name : string)
  : M (WireBuild * option error) :=
  match buildClient a with
  | None => panic
  | Some c => fun s =>
      let (r, w) := Builds_Get c ns name (world s) in
      Done r (served s w (BuildsGet ns name))
  end.

(** [a.buildClient.BuildV1().BuildConfigs(ns).Get(name, metav1.GetOptions{})] *)
Definition buildClient_BuildConfigs_Get (a : buildByStrategy) (ns name : string)
  : M (WireBuildConfig * option error) :=
  match buildClient a with
  | None => panic
  | Some c => fun s =>
      let (r, w) := BuildConfigs_Get c ns name (world s) in
      Done r (served s w (BuildConfigsGet ns name))
  end.

Notation "x <- m ;; k" := (bind m (fun x => k))
  (at level 61, m at next level, right associativity).
Notation "' p <- m ;; k" := (bind m (fun p => k))
  (at level 61, p pattern, m at next level, right associativity).

(** *** Construction and wiring *)

(** Modelled from the spec: [buildapi.Resource] and [buildapi.LegacyResource]
    are not under [src/].  A resource identifier is a group with a resource
    string; the two helpers qualify a resource name by the current,
    respectively the legacy, API group. *)
Definition Resource (resource : string) : schema.GroupResource :=
  {| schema.Group := GroupName; schema.Resource := resource |}.

Definition LegacyResource (resource : string) : schema.GroupResource :=
  {| schema.Group := LegacyGroupName; schema.Resource := resource |}.

Definition NewBuildByStrategy : buildByStrategy :=
  {| Handler := admission.NewHandler [admission.Create; admission.Update];
     sarClient := None;
     buildClient := None |}.

(** [a.sarClient = c.Authorization().SubjectAccessReviews()]; the argument is
    the value of that expression. *)
Definition SetInternalKubeClientSet (a : buildByStrategy)
    (c : option SubjectAccessReviewInterface) : buildByStrategy :=
  {| Handler := Handler a; sarClient := c; buildClient := buildClient a |}.

Definition SetOpenshiftInternalBuildClient (a : buildByStrategy)
    (c : option BuildInterface) : buildByStrategy :=
  {| Handler := Handler a; sarClient := sarClient a; buildClient := c |}.

Definition ValidateInitialization (a : buildByStrategy) : option error :=
  if negb (notNil (buildClient a))
  then Some (Errorf "BuildByStrategy needs an Openshift buildClient")
  else if negb (notNil (sarClient a))
  then Some (Errorf "BuildByStrategy needs an Openshift sarClient")
  else None.

(** *** The strategy mapper *)

Definition resourceForStrategyType (strategy : buildapi.BuildStrategy)
  : schema.GroupResource * option error :=
  if match buildapi.DockerStrategy strategy with
     | Some d =>
         match buildapi.ImageOptimizationPolicy d with
         | Some policy => negb (String.eqb policy ImageOptimizationNone)
         | None => false
         end
     | None => false
     end
  then (Resource OptimizedDockerBuildResource, None)
  else if notNil (buildapi.DockerStrategy strategy)
  then (Resource DockerBuildResource, None)
  else if notNil (buildapi.CustomStrategy strategy)
  then (Resource CustomBuildResource, None)
  else if notNil (buildapi.SourceStrategy strategy)
  then (Resource SourceBuildResource, None)
  else if notNil (buildapi.JenkinsPipelineStrategy strategy)
  then (Resource JenkinsPipelineBuildResource, None)
  else ({| schema.Group := ""; schema.Resource := "" |},
        Some (Errorf ("unrecognized build strategy: " ++ GoSyntaxStrategy strategy))).

Definition resourceName (objectMeta : metav1.ObjectMeta) : string :=
  if Nat.ltb 0 (String.length (metav1.GenerateName objectMeta))
  then metav1.GenerateName objectMeta
  else metav1.Name objectMeta.

Definition strategyTypeString (strategy : buildapi.BuildStrategy) : string :=
  if notNil (buildapi.DockerStrategy strategy) then "Docker"
  else if notNil (buildapi.CustomStrategy strategy) then "Custom"
  else if notNil (buildapi.SourceStrategy strategy) then "Source"
  else if notNil (buildapi.JenkinsPipelineStrategy strategy) then "JenkinsPipeline"
  else "".

(** *** The access decision *)

Definition notAllowed (strategy : buildapi.BuildStrategy)
    (attr : admission.Attributes) : error :=
  NewForbidden attr
    (Errorf ("build strategy " ++ strategyTypeString strategy ++ " is not allowed")).

Definition checkAccess (a : buildByStrategy) (strategy : buildapi.BuildStrategy)
    (subjectAccessReview : authorization.SubjectAccessReview)
    (attr : admission.Attributes) : M (option error) :=
  '(resp, err) <- sarClient_Create a subjectAccessReview ;;
  match err with
  | Some e => ret (Some (NewForbidden attr e))
  | None =>
      match resp with
      | None => panic (* resp.Status on a nil result *)
      | Some r =>
          if negb (authorization.Allowed (authorization.Status r))
          then ret (Some (notAllowed strategy attr))
          else ret None
      end
  end.

(** The zero value of the status a freshly built query carries. *)
Definition zeroStatus : authorization.SubjectAccessReviewStatus :=
  {| authorization.Allowed := false; authorization.Reason := "" |}.

Definition checkBuildAuthorization (a : buildByStrategy) (build : buildapi.Build)
    (attr : admission.Attributes) : M (option error) :=
  let strategy := buildapi.Strategy (buildapi.Spec build) in
  let (resource, err) := resourceForStrategyType strategy in
  match err with
  | Some e => ret (Some (NewForbidden attr e))
  | None =>
      let tokens := strings.SplitN (schema.Resource resource) "/" 2 in
      match tokens with
      | [] => panic (* tokens[0] *)
      | resourceType :: _ =>
          let subresource :=
            match tokens with
            | [_; t1] => t1 (* len(tokens) == 2 *)
            | _ => ""
            end in
          let sar := AddUserToSAR (admission.GetUserInfo attr)
            {| authorization.Spec :=
                 {| authorization.ResourceAttributesOf := Some
                      {| authorization.Namespace := admission.GetNamespace attr;
                         authorization.Verb := "create";
                         authorization.Group := schema.Group resource;
                         authorization.Resource := resourceType;
                         authorization.Subresource := subresource;
                         authorization.Name := resourceName (buildapi.ObjectMeta build) |};
                    authorization.User := "";
                    authorization.Groups := [];
                    authorization.Extra := [] |};
               authorization.Status := zeroStatus |} in
          checkAccess a strategy sar attr
      end
  end.

Definition checkBuildConfigAuthorization (a : buildByStrategy)
    (buildConfig : buildapi.BuildConfig) (attr : admission.Attributes)
  : M (option error) :=
  let strategy := buildapi.Strategy (buildapi.bcSpec buildConfig) in
  let (resource, err) := resourceForStrategyType strategy in
  match err with
  | Some e => ret (Some (NewForbidden attr e))
  | None =>
      let tokens := strings.SplitN (schema.Resource resource) "/" 2 in
      match tokens with
      | [] => panic (* tokens[0] *)
      | resourceType :: _ =>
          let subresource :=
            match tokens with
            | [_; t1] => t1 (* len(tokens) == 2 *)
            | _ => ""
            end in
          let sar := AddUserToSAR (admission.GetUserInfo attr)
            {| authorization.Spec :=
                 {| authorization.ResourceAttributesOf := Some
                      {| authorization.Namespace := admission.GetNamespace attr;
                         authorization.Verb := "create";
                         authorization.Group := schema.Group resource;
                         authorization.Resource := resourceType;
                         authorization.Subresource := subresource;
                         authorization.Name :=
                           resourceName (buildapi.bcObjectMeta buildConfig) |};
                    authorization.User := "";
                    authorization.Groups := [];
                    authorization.Extra := [] |};
               authorization.Status := zeroStatus |} in
          checkAccess a strategy sar attr
      end
  end.

(** *** The object resolver *)

Definition checkBuildRequestAuthorization (a : buildByStrategy)
    (req : buildapi.BuildRequest) (attr : admission.Attributes)
  : M (option error) :=
  let gr := schema.GroupResourceOf (admission.GetResource attr) in
  if schema.eqb gr (Resource "builds") || schema.eqb gr (LegacyResource "builds")
  then
    '(build, err) <- buildClient_Builds_Get a (admission.GetNamespace attr)
                       (metav1.Name (buildapi.brObjectMeta req)) ;;
    match err with
    | Some e => ret (Some (NewForbidden attr e))
    | None =>
        let (internalBuild, err) := ConvertBuild build in
        match err with
        | Some e => ret (Some (NewForbidden attr e))
        | None => checkBuildAuthorization a internalBuild attr
        end
    end
  else if schema.eqb gr (Resource "buildconfigs")
          || schema.eqb gr (LegacyResource "buildconfigs")
  then
    '(buildConfig, err) <- buildClient_BuildConfigs_Get a (admission.GetNamespace attr)
                             (metav1.Name (buildapi.brObjectMeta req)) ;;
    match err with
    | Some e => ret (Some (NewForbidden attr e))
    | None =>
        let (internalBuildConfig, err) := ConvertBuildConfig buildConfig in
        match err with
        | Some e => ret (Some (NewForbidden attr e))
        | None => checkBuildConfigAuthorization a internalBuildConfig attr
        end
    end
  else
    ret (Some (NewForbidden attr
                 (Errorf ("Unknown resource type "
                          ++ GroupVersionResourceString (admission.GetResource attr)
                          ++ " for BuildRequest")))).

(** *** The admission gate *)

Definition Admit (a : buildByStrategy) (attr : admission.Attributes)
  : M (option error) :=
  let gr := schema.GroupResourceOf (admission.GetResource attr) in
  (* what follows the first switch: the ownerRef test and the type switch *)
  let checked : M (option error) :=
    if match admission.GetOldObject attr with
       | Some old => IsOnlyMutatingGCFields (admission.GetObject attr) old
       | None => false
       end
    then ret None
    else match admission.GetObject attr with
         | runtime.Build obj => checkBuildAuthorization a obj attr
         | runtime.BuildConfig obj => checkBuildConfigAuthorization a obj attr
         | runtime.BuildRequest obj => checkBuildRequestAuthorization a obj attr
         | obj =>
             ret (Some (NewForbidden attr
                          (Errorf ("unrecognized request object " ++ GoSyntaxObject obj))))
         end in
  if schema.eqb gr (Resource "buildconfigs")
     || schema.eqb gr (LegacyResource "buildconfigs")
  then checked
  else if schema.eqb gr (Resource "builds") || schema.eqb gr (LegacyResource "builds")
  then if String.eqb (admission.GetSubresource attr) "details"
       then ret None
       else checked
  else ret None.

(** *** Vocabulary of the properties *)

(** The request targets the Definition resource ([buildconfigs]) or the
    Instance resource ([builds]), in the current or the legacy group. *)
Definition isDefinitionResource (gr : schema.GroupResource) : bool :=
  schema.eqb gr (Resource "buildconfigs") || schema.eqb gr (LegacyResource "buildconfigs").

Definition isInstanceResource (gr : schema.GroupResource) : bool :=
  schema.eqb gr (Resource "builds") || schema.eqb gr (LegacyResource "builds").

(** The rejection of the last case of [checkBuildRequestAuthorization]. *)
Definition unknownResourceType (attr : admission.Attributes) : error :=
  NewForbidden attr
    (Errorf ("Unknown resource type "
             ++ GroupVersionResourceString (admission.GetResource attr)
             ++ " for BuildRequest")).

(** The variants of a strategy, in the priority order of the two switches. *)
Inductive Variant : Type := DockerLike | CustomLike | SourceLike | PipelineLike.

Definition priority : list Variant := [DockerLike; CustomLike; SourceLike; PipelineLike].

Definition populated (strategy : buildapi.BuildStrategy) (v : Variant) : bool :=
  match v with
  | DockerLike => notNil (buildapi.DockerStrategy strategy)
  | CustomLike => notNil (buildapi.CustomStrategy strategy)
  | SourceLike => notNil (buildapi.SourceStrategy strategy)
  | PipelineLike => notNil (buildapi.JenkinsPipelineStrategy strategy)
  end.

Definition populatedCount (strategy : buildapi.BuildStrategy) : nat :=
  List.length (filter (populated strategy) priority).

Definition firstPopulated (strategy : buildapi.BuildStrategy) : option Variant :=
  find (populated strategy) priority.

Definition variantName (v : Variant) : string :=
  match v with
  | DockerLike => "Docker"
  | CustomLike => "Custom"
  | SourceLike => "Source"
  | PipelineLike => "JenkinsPipeline"
  end.

Definition variantResources (v : Variant) : list schema.GroupResource :=
  match v with
  | DockerLike => [Resource OptimizedDockerBuildResource; Resource DockerBuildResource]
  | CustomLike => [Resource CustomBuildResource]
  | SourceLike => [Resource SourceBuildResource]
  | PipelineLike => [Resource JenkinsPipelineBuildResource]
  end.

(** The request gets past the first switch of [Admit]: it targets the
    Definition resource, or the Instance resource outside its [details]
    sub-resource. *)
Definition checkedResource (attr : admission.Attributes) : bool :=
  isDefinitionResource (schema.GroupResourceOf (admission.GetResource attr))
  || (isInstanceResource (schema.GroupResourceOf (admission.GetResource attr))
      && negb (String.eqb (admission.GetSubresource attr) "details")).

(** The ownerRef test of [Admit]: there is an old object and only the
    garbage-collection fields differ from it. *)
Definition linkageOnlyUpdate (attr : admission.Attributes) : bool :=
  match admission.GetOldObject attr with
  | Some old => IsOnlyMutatingGCFields (admission.GetObject attr) old
  | None => false
  end.


End Gate.

(** Calls in the order one admission may make them: nothing, a single call,
    or one lookup followed by one call to the reviewer. *)
Definition lookupThenReview (l : list Call) : bool :=
  match l with
  | [] => true
  | [_] => true
  | [c1; c2] => negb (isReviewerCall c1) && isReviewerCall c2
  | _ => false
  end.

Arguments Done {W A} r s.
Arguments Panic {W A} s.

(** Splitting a resource string at its first ["/"]: what precedes it, and what
    follows it (nothing when there is no ["/"]). *)
Fixpoint beforeSlash (s : string) : string :=
  match s with
  | EmptyString => EmptyString
  | String c r => if Ascii.eqb c "/" then EmptyString else String c (beforeSlash r)
  end.

Fixpoint afterSlash (s : string) : string :=
  match s with
  | EmptyString => EmptyString
  | String c r => if Ascii.eqb c "/" then r else afterSlash r
  end.

Fixpoint hasSlash (s : string) : bool :=
  match s with
  | EmptyString => false
  | String c r => Ascii.eqb c "/" || hasSlash r
  end.

(** [strings.Contains] *)
Definition Contains (s substr : string) : bool := (0 <=? strings.Index s substr)%Z.

(** The resource attributes of the permission query for an object with
    metadata [meta] whose strategy maps to [resource]: verb ["create"] in the
    namespace of the request, the resource string split at its first slash,
    and the name-generation template as the name unless it is empty. *)
Definition createQuery (attr : admission.Attributes) (resource : schema.GroupResource)
    (meta : metav1.ObjectMeta) : authorization.ResourceAttributes :=
  {| authorization.Namespace := admission.GetNamespace attr;
     authorization.Verb := "create";
     authorization.Group := schema.Group resource;
     authorization.Resource := beforeSlash (schema.Resource resource);
     authorization.Subresource := afterSlash (schema.Resource resource);
     authorization.Name :=
       if String.eqb (metav1.GenerateName meta) "" then metav1.Name meta
       else metav1.GenerateName meta |}.

(** ** Fixtures for the worked examples

    One instance of the imports, with the values the upstream packages give
    their constants and simple stand-ins for the imported functions, and fake
    collaborators over a world that counts the calls it served. *)

Module Fixtures.

Definition ObjectMeta_eq_dec (x y : metav1.ObjectMeta) : {x = y} + {x <> y}.
Proof. decide equality; auto using string_dec, list_eq_dec. Defined.

Definition BuildStrategy_eq_dec (x y : buildapi.BuildStrategy) : {x = y} + {x <> y}.
Proof.
  repeat (decide equality; auto using string_dec).
Defined.

Definition Object_eq_dec (x y : runtime.Object) : {x = y} + {x <> y}.
Proof.
  decide equality; auto using string_dec;
    decide equality; auto using ObjectMeta_eq_dec;
    decide equality; auto using BuildStrategy_eq_dec.
Defined.

(** The new object's metadata with the linkage fields of the old one. *)
Definition withLinkage (m old : metav1.ObjectMeta) : metav1.ObjectMeta :=
  {| metav1.Name := metav1.Name m;
     metav1.GenerateName := metav1.GenerateName m;
     metav1.Namespace := metav1.Namespace m;
     metav1.OwnerReferences := metav1.OwnerReferences old;
     metav1.Finalizers := metav1.Finalizers old |}.

(** A stand-in for [rbacregistry.IsOnlyMutatingGCFields]: copy the new object,
    overwrite its linkage fields with the old ones, and compare with the old
    object. *)
Definition onlyLinkageDiffers (obj old : runtime.Object) : bool :=
  match obj, old with
  | runtime.Build b, runtime.Build o =>
      if Object_eq_dec
           (runtime.Build {| buildapi.ObjectMeta :=
                               withLinkage (buildapi.ObjectMeta b) (buildapi.ObjectMeta o);
                             buildapi.Spec := buildapi.Spec b |}) old
      then true else false
  | runtime.BuildConfig b, runtime.BuildConfig o =>
      if Object_eq_dec
           (runtime.BuildConfig
              {| buildapi.bcObjectMeta :=
                   withLinkage (buildapi.bcObjectMeta b) (buildapi.bcObjectMeta o);
                 buildapi.bcSpec := buildapi.bcSpec b |}) old
      then true else false
  | _, _ => false
  end.

Definition origin : Imports :=
  {| GroupName := "build.openshift.io";
     LegacyGroupName := "";
     ImageOptimizationNone := "None";
     DockerBuildResource := "builds/docker";
     OptimizedDockerBuildResource := "builds/optimizeddocker";
     CustomBuildResource := "builds/custom";
     SourceBuildResource := "builds/source";
     JenkinsPipelineBuildResource := "builds/jenkinspipeline";
     IsOnlyMutatingGCFields := onlyLinkageDiffers;
     GoSyntaxStrategy := fun _ => "build.BuildStrategy{}";
     GoSyntaxObject := fun o =>
       match o with
       | runtime.Build _ => "&build.Build{}"
       | runtime.BuildConfig _ => "&build.BuildConfig{}"
       | runtime.BuildRequest _ => "&build.BuildRequest{}"
       | runtime.Other kind => kind
       end;
     GroupVersionResourceString := fun gvr =>
       schema.gvrGroup gvr ++ "/" ++ schema.gvrVersion gvr
         ++ ", Resource=" ++ schema.gvrResource gvr;
     WireBuild := buildapi.Build;
     WireBuildConfig := buildapi.BuildConfig;
     ConvertBuild := fun b => (b, None);
     ConvertBuildConfig := fun b => (b, None) |}.

(** A reviewer that answers every query with the same verdict. *)
Definition verdict (allowed : bool) : SubjectAccessReviewInterface (W := nat) :=
  fun sar served =>
    ((Some {| authorization.Spec := authorization.Spec sar;
              authorization.Status :=
                {| authorization.Allowed := allowed; authorization.Reason := "" |} |},
      None),
     S served).

(** A reviewer whose backend is unreachable. *)
Definition unreachable : SubjectAccessReviewInterface (W := nat) :=
  fun _ served => ((None, Some (StatusError "ServiceUnavailable" "no authorizer")), S served).

Definition emptyMeta (name : string) : metav1.ObjectMeta :=
  {| metav1.Name := name;
     metav1.GenerateName := "";
     metav1.Namespace := "ns";
     metav1.OwnerReferences := [];
     metav1.Finalizers := [] |}.

Definition noStrategy : buildapi.BuildStrategy :=
  {| buildapi.DockerStrategy := None;
     buildapi.CustomStrategy := None;
     buildapi.SourceStrategy := None;
     buildapi.JenkinsPipelineStrategy := None |}.

Definition dockerStrategy (policy : option string) : buildapi.BuildStrategy :=
  {| buildapi.DockerStrategy := Some {| buildapi.ImageOptimizationPolicy := policy |};
     buildapi.CustomStrategy := None;
     buildapi.SourceStrategy := None;
     buildapi.JenkinsPipelineStrategy := None |}.

Definition customStrategy : buildapi.BuildStrategy :=
  {| buildapi.DockerStrategy := None;
     buildapi.CustomStrategy := Some buildapi.MkCustom;
     buildapi.SourceStrategy := None;
     buildapi.JenkinsPipelineStrategy := None |}.

Definition sourceStrategy : buildapi.BuildStrategy :=
  {| buildapi.DockerStrategy := None;
     buildapi.CustomStrategy := None;
     buildapi.SourceStrategy := Some buildapi.MkSource;
     buildapi.JenkinsPipelineStrategy := None |}.

(** Two variants at once: outside the invariant of the data model. *)
Definition customAndSource : buildapi.BuildStrategy :=
  {| buildapi.DockerStrategy := None;
     buildapi.CustomStrategy := Some buildapi.MkCustom;
     buildapi.SourceStrategy := Some buildapi.MkSource;
     buildapi.JenkinsPipelineStrategy := None |}.

Definition buildOf (name : string) (strategy : buildapi.BuildStrategy) : buildapi.Build :=
  {| buildapi.ObjectMeta := emptyMeta name;
     buildapi.Spec := {| buildapi.Strategy := strategy |} |}.

Definition buildConfigOf (name generateName : string)
    (strategy : buildapi.BuildStrategy) : buildapi.BuildConfig :=
  {| buildapi.bcObjectMeta :=
       {| metav1.Name := name;
          metav1.GenerateName := generateName;
          metav1.Namespace := "ns";
          metav1.OwnerReferences := [];
          metav1.Finalizers := [] |};
     buildapi.bcSpec := {| buildapi.Strategy := strategy |} |}.

(** A store holding no object, and a store whose objects fail to convert are
    told apart by the imports; this one finds nothing. *)
Definition emptyStore : BuildInterface (I := origin) (W := nat) :=
  {| Builds_Get := fun ns name served =>
       ((buildOf "" noStrategy : @WireBuild origin,
         Some (StatusError "NotFound" name)), S served);
     BuildConfigs_Get := fun ns name served =>
       ((buildConfigOf "" "" noStrategy : @WireBuildConfig origin,
         Some (StatusError "NotFound" name)), S served) |}.

Definition alice : user.Info :=
  {| user.GetName := "alice"; user.GetGroups := ["dev"]; user.GetExtra := [] |}.

Definition request (group resource subresource : string) (op : admission.Operation)
    (obj : runtime.Object) (old : option runtime.Object) : admission.Attributes :=
  {| admission.GetResource :=
       {| schema.gvrGroup := group; schema.gvrVersion := "v1";
          schema.gvrResource := resource |};
     admission.GetSubresource := subresource;
     admission.GetNamespace := "ns";
     admission.GetOperation := op;
     admission.GetUserInfo := alice;
     admission.GetObject := obj;
     admission.GetOldObject := old |}.

(** A gate wired with a reviewer and a store. *)
Definition gate (reviewer : SubjectAccessReviewInterface (W := nat))
  : buildByStrategy (I := origin) (W := nat) :=
  SetOpenshiftInternalBuildClient
    (SetInternalKubeClientSet NewBuildByStrategy (Some reviewer))
    (Some emptyStore).

Definition start : St (W := nat) := {| world := 0; trace := [] |}.

(** The same imports with a scheme that converts nothing. *)
Definition brokenScheme : Imports :=
  {| GroupName := GroupName (Imports := origin);
     LegacyGroupName := LegacyGroupName (Imports := origin);
     ImageOptimizationNone := ImageOptimizationNone (Imports := origin);
     DockerBuildResource := DockerBuildResource (Imports := origin);
     OptimizedDockerBuildResource := OptimizedDockerBuildResource (Imports := origin);
     CustomBuildResource := CustomBuildResource (Imports := origin);
     SourceBuildResource := SourceBuildResource (Imports := origin);
     JenkinsPipelineBuildResource := JenkinsPipelineBuildResource (Imports := origin);
     IsOnlyMutatingGCFields := onlyLinkageDiffers;
     GoSyntaxStrategy := GoSyntaxStrategy (Imports := origin);
     GoSyntaxObject := GoSyntaxObject (Imports := origin);
     GroupVersionResourceString := GroupVersionResourceString (Imports := origin);
     WireBuild := buildapi.Build;
     WireBuildConfig := buildapi.BuildConfig;
     ConvertBuild := fun b => (buildOf "" noStrategy, Some (Errorf "no conversion"));
     ConvertBuildConfig := fun b =>
       (buildConfigOf "" "" noStrategy, Some (Errorf "no conversion")) |}.

(** A store that finds a Source build, respectively a Source build
    configuration, under every name. *)
Definition fullStore : BuildInterface (I := brokenScheme) (W := nat) :=
  {| Builds_Get := fun ns name served =>
       ((buildOf name sourceStrategy : @WireBuild brokenScheme, None), S served);
     BuildConfigs_Get := fun ns name served =>
       ((buildConfigOf name "" sourceStrategy : @WireBuildConfig brokenScheme, None),
        S served) |}.

Definition brokenGate (reviewer : SubjectAccessReviewInterface (W := nat))
  : buildByStrategy (I := brokenScheme) (W := nat) :=
  SetOpenshiftInternalBuildClient
    (SetInternalKubeClientSet NewBuildByStrategy (Some reviewer))
    (Some fullStore).

(** A build that differs from [buildOf name strategy] in its owner only. *)
Definition ownedBuild (name : string) (strategy : buildapi.BuildStrategy) : buildapi.Build :=
  {| buildapi.ObjectMeta :=
       {| metav1.Name := name;
          metav1.GenerateName := "";
          metav1.Namespace := "ns";
          metav1.OwnerReferences := ["BuildConfig/owner"];
          metav1.Finalizers := [] |};
     buildapi.Spec := {| buildapi.Strategy := strategy |} |}.

(** The request to run the object called [name]. *)
Definition runRequest (group resource : string) (name : string) : admission.Attributes :=
  request group resource "" admission.Create
    (runtime.BuildRequest {| buildapi.brObjectMeta := emptyMeta name |}) None.

Definition someQuery : authorization.SubjectAccessReview :=
  AddUserToSAR alice
    {| authorization.Spec :=
         {| authorization.ResourceAttributesOf := Some
              {| authorization.Namespace := "ns";
                 authorization.Verb := "create";
                 authorization.Group := "build.openshift.io";
                 authorization.Resource := "builds";
                 authorization.Subresource := "custom";
                 authorization.Name := "b1" |};
            authorization.User := "";
            authorization.Groups := [];
            authorization.Extra := [] |};
       authorization.Status :=
         {| authorization.Allowed := false; authorization.Reason := "" |} |}.

(** A store over the plain imports that holds a Source build under every
    name. *)
Definition sourceStore : BuildInterface (I := origin) (W := nat) :=
  {| Builds_Get := fun ns name served =>
       ((buildOf name sourceStrategy : @WireBuild origin, None), S served);
     BuildConfigs_Get := fun ns name served =>
       ((buildConfigOf name "" sourceStrategy : @WireBuildConfig origin, None),
        S served) |}.

End Fixtures.

(** * Properties *)

(** ** Splitting at the first slash *)

Module stringsFacts.
Import strings.
Local Open Scope Z_scope.

Lemma Index_lower_bound (s sep : string) : -1 <= Index s sep.
Proof.
  induction s as [|c r IH]; cbn [Index].
  - destruct (prefix sep ""); lia.
  - destruct (prefix sep (String c r)); [lia|].
    destruct (Index r sep <? 0) eqn:E; [lia|].
    apply Z.ltb_ge in E. lia.
Qed.

Lemma Index_slash_cons (c : ascii) (r : string) :
  Index (String c r) "/" =
  if Ascii.eqb c "/" then 0
  else if Index r "/" <? 0 then -1 else Index r "/" + 1.
Proof.
  cbn [Index prefix].
  destruct (ascii_dec "/" c) as [<-|Hne].
  - rewrite Ascii.eqb_refl. now destruct r.
  - destruct (Ascii.eqb_spec c "/") as [->|_]; [now elim Hne | reflexivity].
Qed.

Lemma Index_without_slash (s : string) : hasSlash s = false -> Index s "/" = -1.
Proof.
  induction s as [|c r IH]; [reflexivity|].
  cbn [hasSlash]. intros [Hc Hr]%orb_false_iff.
  rewrite Index_slash_cons, Hc, (IH Hr). reflexivity.
Qed.

Lemma Index_with_slash (s : string) :
  hasSlash s = true -> Index s "/" = Z.of_nat (String.length (beforeSlash s)).
Proof.
  induction s as [|c r IH]; [discriminate|].
  cbn [hasSlash beforeSlash]. rewrite Index_slash_cons.
  destruct (Ascii.eqb c "/"); [reflexivity|].
  cbn [orb]. intros Hr. rewrite (IH Hr).
  cbn [String.length].
  destruct (Z.ltb_spec (Z.of_nat (String.length (beforeSlash r))) 0); lia.
Qed.

Lemma substring_whole (s : string) : substring 0 (String.length s) s = s.
Proof. induction s as [|c r IH]; cbn; [|rewrite IH]; reflexivity. Qed.

Lemma sliceTo_beforeSlash (s : string) :
  sliceTo s (Z.of_nat (String.length (beforeSlash s))) = beforeSlash s.
Proof.
  unfold sliceTo. rewrite Nat2Z.id.
  induction s as [|c r IH]; [reflexivity|].
  cbn [beforeSlash]. destruct (Ascii.eqb c "/"); [reflexivity|].
  cbn [String.length substring]. now rewrite IH.
Qed.

Lemma sliceFrom_afterSlash (s : string) :
  hasSlash s = true ->
  sliceFrom s (Z.of_nat (String.length (beforeSlash s)) + Z.of_nat (String.length "/"))
  = afterSlash s.
Proof.
  unfold sliceFrom.
  replace (Z.to_nat (Z.of_nat (String.length (beforeSlash s)) + Z.of_nat (String.length "/")))
    with (S (String.length (beforeSlash s))) by (cbn [String.length]; lia).
  induction s as [|c r IH]; [discriminate|].
  cbn [hasSlash beforeSlash afterSlash].
  destruct (Ascii.eqb c "/"); cbn [orb String.length substring Nat.sub].
  - intros _. rewrite Nat.sub_0_r. apply substring_whole.
  - exact IH.
Qed.

(** [strings.SplitN(s, "/", 2)] cuts [s] at its first slash, and returns [s]
    alone when it has none. *)
Lemma SplitN_slash (s : string) :
  SplitN s "/" 2 = if hasSlash s then [beforeSlash s; afterSlash s] else [s].
Proof.
  unfold SplitN. cbn [Z.eqb Z.ltb Z.compare].
  change (Z.to_nat (2 - 1)) with 1%nat. cbn [genSplitLoop].
  destruct (hasSlash s) eqn:E.
  - rewrite (Index_with_slash s E).
    destruct (Z.ltb_spec (Z.of_nat (String.length (beforeSlash s))) 0); [lia|].
    now rewrite sliceTo_beforeSlash, sliceFrom_afterSlash.
  - now rewrite (Index_without_slash s E).
Qed.

End stringsFacts.

(** ** The strategy mapper and the strategy names *)

Section MapperFacts.
Context {I : Imports}.

Lemma notNil_true {A} (p : option A) : notNil p = true <-> p <> None.
Proof. destruct p; cbn; split; congruence. Qed.

Lemma notNil_false {A} (p : option A) : notNil p = false <-> p = None.
Proof. destruct p; cbn; split; congruence. Qed.

(** Rewrites the nil tests of a strategy whose fields are known. *)
Ltac nil_tests :=
  repeat match goal with
    | H : _ = Some _ |- _ => rewrite H in *; clear H
    | H : _ = None |- _ => rewrite H in *; clear H
    | H : _ <> None |- _ => apply notNil_true in H; rewrite H in *; clear H
    end.

(** C1. [resourceForStrategyType] answers by ordered first match: a Docker
    strategy whose image-optimization policy is set and is not the "none"
    policy maps to the optimized Docker resource; any other Docker strategy
    (policy absent or "none") to the base Docker resource; then Custom, Source
    and JenkinsPipeline to their resources; and a strategy with no variant
    populated yields an error and no identifier. *)
Theorem resourceForStrategyType_first_match (strategy : buildapi.BuildStrategy) :
  (forall d policy,
      buildapi.DockerStrategy strategy = Some d ->
      buildapi.ImageOptimizationPolicy d = Some policy ->
      policy <> ImageOptimizationNone ->
      resourceForStrategyType strategy = (Resource OptimizedDockerBuildResource, None))
  /\ (forall d,
         buildapi.DockerStrategy strategy = Some d ->
         buildapi.ImageOptimizationPolicy d = None
         \/ buildapi.ImageOptimizationPolicy d = Some ImageOptimizationNone ->
         resourceForStrategyType strategy = (Resource DockerBuildResource, None))
  /\ (buildapi.DockerStrategy strategy = None ->
      buildapi.CustomStrategy strategy <> None ->
      resourceForStrategyType strategy = (Resource CustomBuildResource, None))
  /\ (buildapi.DockerStrategy strategy = None ->
      buildapi.CustomStrategy strategy = None ->
      buildapi.SourceStrategy strategy <> None ->
      resourceForStrategyType strategy = (Resource SourceBuildResource, None))
  /\ (buildapi.DockerStrategy strategy = None ->
      buildapi.CustomStrategy strategy = None ->
      buildapi.SourceStrategy strategy = None ->
      buildapi.JenkinsPipelineStrategy strategy <> None ->
      resourceForStrategyType strategy = (Resource JenkinsPipelineBuildResource, None))
  /\ (buildapi.DockerStrategy strategy = None ->
      buildapi.CustomStrategy strategy = None ->
      buildapi.SourceStrategy strategy = None ->
      buildapi.JenkinsPipelineStrategy strategy = None ->
      resourceForStrategyType strategy =
      ({| schema.Group := ""; schema.Resource := "" |},
       Some (Errorf ("unrecognized build strategy: " ++ GoSyntaxStrategy strategy)))).
Proof.
  unfold resourceForStrategyType.
  repeat split.
  - intros d policy Hd Hp Hne. rewrite Hd, Hp.
    destruct (String.eqb_spec policy ImageOptimizationNone); [contradiction | reflexivity].
  - intros d Hd [Hp | Hp]; rewrite Hd, Hp; cbn [notNil].
    + reflexivity.
    + now rewrite String.eqb_refl.
  - intros; nil_tests; reflexivity.
  - intros; nil_tests; reflexivity.
  - intros; nil_tests; reflexivity.
  - intros; nil_tests; reflexivity.
Qed.

(** The names [strategyTypeString] gives, by the same ordered first match. *)
Lemma strategyTypeString_first_match (strategy : buildapi.BuildStrategy) :
  (buildapi.DockerStrategy strategy <> None -> strategyTypeString strategy = "Docker")
  /\ (buildapi.DockerStrategy strategy = None ->
      buildapi.CustomStrategy strategy <> None ->
      strategyTypeString strategy = "Custom")
  /\ (buildapi.DockerStrategy strategy = None ->
      buildapi.CustomStrategy strategy = None ->
      buildapi.SourceStrategy strategy <> None ->
      strategyTypeString strategy = "Source")
  /\ (buildapi.DockerStrategy strategy = None ->
      buildapi.CustomStrategy strategy = None ->
      buildapi.SourceStrategy strategy = None ->
      buildapi.JenkinsPipelineStrategy strategy <> None ->
      strategyTypeString strategy = "JenkinsPipeline")
  /\ (buildapi.DockerStrategy strategy = None ->
      buildapi.CustomStrategy strategy = None ->
      buildapi.SourceStrategy strategy = None ->
      buildapi.JenkinsPipelineStrategy strategy = None ->
      strategyTypeString strategy = "").
Proof.
  unfold strategyTypeString.
  repeat split; intros; nil_tests; reflexivity.
Qed.

(** The name is that of the first populated variant in priority order. *)
Lemma strategyTypeString_firstPopulated (strategy : buildapi.BuildStrategy) :
  strategyTypeString strategy =
  match firstPopulated strategy with
  | Some v => variantName v
  | None => ""
  end.
Proof.
  unfold strategyTypeString, firstPopulated, priority. cbn [find populated].
  repeat match goal with |- context [notNil ?p] => destruct (notNil p) end;
    reflexivity.
Qed.

(** The mapper errs exactly when no variant is populated, and otherwise
    returns a resource of the first populated variant. *)
Lemma resourceForStrategyType_firstPopulated (strategy : buildapi.BuildStrategy) :
  match firstPopulated strategy with
  | Some v =>
      snd (resourceForStrategyType strategy) = None
      /\ In (fst (resourceForStrategyType strategy)) (variantResources v)
  | None => snd (resourceForStrategyType strategy) <> None
  end.
Proof.
  unfold resourceForStrategyType, firstPopulated, priority. cbn [find populated].
  destruct (buildapi.DockerStrategy strategy) as [[[policy|]]|]; cbn [notNil].
  - cbn. destruct (String.eqb policy ImageOptimizationNone); cbn; auto.
  - cbn; auto.
  - repeat match goal with |- context [notNil ?p] => destruct (notNil p) end;
      cbn; auto; discriminate.
Qed.

Lemma populatedCount_firstPopulated (strategy : buildapi.BuildStrategy) :
  1 <= populatedCount strategy -> firstPopulated strategy <> None.
Proof.
  unfold populatedCount, firstPopulated.
  induction priority as [|v vs IH]; cbn [filter find List.length].
  - lia.
  - destruct (populated strategy v); [discriminate | exact IH].
Qed.

(** C10. When more than one variant is populated, [resourceForStrategyType]
    returns no error and resolves by the fixed priority Docker, Custom,
    Source, JenkinsPipeline, and [strategyTypeString] names the variant of the
    same priority: the mapped resource and the name in the denial message
    belong to one variant. *)
Theorem multiple_variants_resolved_by_priority (strategy : buildapi.BuildStrategy) :
  2 <= populatedCount strategy ->
  exists v,
    firstPopulated strategy = Some v
    /\ snd (resourceForStrategyType strategy) = None
    /\ In (fst (resourceForStrategyType strategy)) (variantResources v)
    /\ strategyTypeString strategy = variantName v.
Proof.
  intros Hmany.
  assert (Hsome : firstPopulated strategy <> None)
    by (apply populatedCount_firstPopulated; lia).
  pose proof (resourceForStrategyType_firstPopulated strategy) as Hres.
  pose proof (strategyTypeString_firstPopulated strategy) as Hname.
  destruct (firstPopulated strategy) as [v|]; [|congruence].
  exists v. tauto.
Qed.

End MapperFacts.

(** ** The gate and its collaborators *)

Section GateFacts.
Context {I : Imports} {W : Type}.
Implicit Types (a : buildByStrategy (W := W)) (s : St (W := W)).
Implicit Types (attr : admission.Attributes) (strategy : buildapi.BuildStrategy).

(** Runs the monadic plumbing of a goal. *)
Ltac run :=
  unfold bind, ret, panic, sarClient_Create, buildClient_Builds_Get,
    buildClient_BuildConfigs_Get in *.

(** C8. [ValidateInitialization] returns an error exactly when the permission
    reviewer client or the build lookup client is absent, and no error when
    both are set. *)
Theorem ValidateInitialization_reports_missing_collaborator a :
  ((exists e, ValidateInitialization a = Some e)
   <-> sarClient a = None \/ buildClient a = None)
  /\ (ValidateInitialization a = None
      <-> sarClient a <> None /\ buildClient a <> None).
Proof.
  unfold ValidateInitialization.
  destruct (buildClient a) as [store|], (sarClient a) as [reviewer|]; cbn;
    repeat split;
    try (intros [e He]); try (intros [H|H]); try (intros [H1 H2]); intros;
    try discriminate; try congruence; eauto.
Qed.

(** What [checkAccess] does once the reviewer has answered. *)
Lemma checkAccess_answered a strategy sar attr s reviewer resp err w :
  sarClient a = Some reviewer ->
  reviewer sar (world s) = ((resp, err), w) ->
  checkAccess a strategy sar attr s =
  match err, resp with
  | Some e, _ =>
      Done (Some (NewForbidden attr e)) (served s w (SubjectAccessReviewsCreate sar))
  | None, None => Panic (served s w (SubjectAccessReviewsCreate sar))
  | None, Some r =>
      Done (if authorization.Allowed (authorization.Status r) then None
            else Some (notAllowed strategy attr))
        (served s w (SubjectAccessReviewsCreate sar))
  end.
Proof.
  intros Ha Hr. unfold checkAccess. run. rewrite Ha, Hr.
  destruct err as [e|], resp as [r|]; try reflexivity.
  now destruct (authorization.Allowed (authorization.Status r)).
Qed.

(** Without a reviewer [checkAccess] panics before any call. *)
Lemma checkAccess_nil_reviewer a strategy sar attr s :
  sarClient a = None -> checkAccess a strategy sar attr s = Panic s.
Proof. intros Ha. unfold checkAccess. run. now rewrite Ha. Qed.

(** C2. If the reviewer call returns an error, [checkAccess] returns a denial
    carrying that error; if the reviewer succeeds with allowed=false, the
    result is a denial as well; and the request is allowed only when the
    reviewer succeeded and reported allowed=true. *)
Theorem checkAccess_fail_closed a strategy sar attr s :
  (forall reviewer resp e w,
      sarClient a = Some reviewer ->
      reviewer sar (world s) = ((resp, Some e), w) ->
      checkAccess a strategy sar attr s =
      Done (Some (NewForbidden attr e)) (served s w (SubjectAccessReviewsCreate sar)))
  /\ (forall reviewer r w,
         sarClient a = Some reviewer ->
         reviewer sar (world s) = ((Some r, None), w) ->
         authorization.Allowed (authorization.Status r) = false ->
         exists cause,
           checkAccess a strategy sar attr s =
           Done (Some (NewForbidden attr cause))
             (served s w (SubjectAccessReviewsCreate sar)))
  /\ (forall s',
         checkAccess a strategy sar attr s = Done None s' ->
         exists reviewer r w,
           sarClient a = Some reviewer
           /\ reviewer sar (world s) = ((Some r, None), w)
           /\ authorization.Allowed (authorization.Status r) = true).
Proof.
  split; [|split].
  - intros reviewer resp e w Ha Hr.
    now rewrite (checkAccess_answered _ _ _ _ _ _ _ _ _ Ha Hr).
  - intros reviewer r w Ha Hr Hdenied.
    rewrite (checkAccess_answered _ _ _ _ _ _ _ _ _ Ha Hr), Hdenied.
    unfold notAllowed. eauto.
  - intros s' Hallow.
    destruct (sarClient a) as [reviewer|] eqn:Ha.
    + destruct (reviewer sar (world s)) as [[resp err] w] eqn:Hr.
      rewrite (checkAccess_answered _ _ _ _ _ _ _ _ _ Ha Hr) in Hallow.
      destruct err as [e|]; [discriminate|].
      destruct resp as [r|]; [|discriminate].
      destruct (authorization.Allowed (authorization.Status r)) eqn:Hr'; [|discriminate].
      exists reviewer, r, w. auto.
    + rewrite (checkAccess_nil_reviewer _ _ _ _ _ Ha) in Hallow. discriminate.
Qed.

(** C7. When the reviewer answers "not allowed", the denial message names the
    strategy type: "Docker", "Custom", "Source" or "JenkinsPipeline" by the
    first populated variant, the empty string when none is; a denial for a
    Custom strategy contains "Custom". *)
Theorem denial_names_strategy_type a strategy sar attr s reviewer r w :
  sarClient a = Some reviewer ->
  reviewer sar (world s) = ((Some r, None), w) ->
  authorization.Allowed (authorization.Status r) = false ->
  checkAccess a strategy sar attr s =
  Done (Some (NewForbidden attr
                (Errorf ("build strategy " ++ strategyTypeString strategy
                         ++ " is not allowed"))))
    (served s w (SubjectAccessReviewsCreate sar))
  /\ (buildapi.DockerStrategy strategy <> None -> strategyTypeString strategy = "Docker")
  /\ (buildapi.DockerStrategy strategy = None ->
      buildapi.CustomStrategy strategy <> None ->
      strategyTypeString strategy = "Custom"
      /\ Contains ("build strategy " ++ strategyTypeString strategy ++ " is not allowed")
           "Custom" = true)
  /\ (buildapi.DockerStrategy strategy = None ->
      buildapi.CustomStrategy strategy = None ->
      buildapi.SourceStrategy strategy <> None ->
      strategyTypeString strategy = "Source")
  /\ (buildapi.DockerStrategy strategy = None ->
      buildapi.CustomStrategy strategy = None ->
      buildapi.SourceStrategy strategy = None ->
      buildapi.JenkinsPipelineStrategy strategy <> None ->
      strategyTypeString strategy = "JenkinsPipeline")
  /\ (buildapi.DockerStrategy strategy = None ->
      buildapi.CustomStrategy strategy = None ->
      buildapi.SourceStrategy strategy = None ->
      buildapi.JenkinsPipelineStrategy strategy = None ->
      strategyTypeString strategy = "").
Proof.
  intros Ha Hr Hdenied.
  destruct (strategyTypeString_first_match strategy)
    as (HDocker & HCustom & HSource & HJenkins & HNone).
  split; [|repeat split; auto].
  - now rewrite (checkAccess_answered _ _ _ _ _ _ _ _ _ Ha Hr), Hdenied.
  - rewrite HCustom by assumption. reflexivity.
Qed.

(** *** The bypass rules of [Admit] *)

Lemma instance_not_definition (gr : schema.GroupResource) :
  isInstanceResource gr = true -> isDefinitionResource gr = false.
Proof.
  unfold isInstanceResource, isDefinitionResource, schema.eqb, Resource, LegacyResource.
  cbn [schema.Group schema.Resource].
  intros H.
  assert (Hres : schema.Resource gr = "builds").
  { apply orb_true_iff in H.
    destruct H as [H|H]; apply andb_true_iff in H; now apply String.eqb_eq. }
  rewrite Hres. cbn. now rewrite !andb_false_r.
Qed.

(** C3. On a request for the Definition or the Instance resource that carries
    a previous object and differs from it in garbage-collection linkage only,
    [Admit] allows at once: whatever the collaborators are, none is called. *)
Theorem Admit_allows_linkage_only_update a attr old s :
  isDefinitionResource (schema.GroupResourceOf (admission.GetResource attr))
  || isInstanceResource (schema.GroupResourceOf (admission.GetResource attr)) = true ->
  admission.GetOldObject attr = Some old ->
  IsOnlyMutatingGCFields (admission.GetObject attr) old = true ->
  Admit a attr s = Done None s.
Proof.
  intros _ Hold Hgc. unfold Admit. rewrite Hold, Hgc.
  fold (isDefinitionResource (schema.GroupResourceOf (admission.GetResource attr))).
  fold (isInstanceResource (schema.GroupResourceOf (admission.GetResource attr))).
  destruct (isDefinitionResource _); [reflexivity|].
  destruct (isInstanceResource _); [|reflexivity].
  now destruct (String.eqb _ "details").
Qed.

(** C4. A request for the [details] sub-resource of the Instance resource,
    and a request for a resource that is neither the Definition nor the
    Instance resource, are allowed at once: neither the reviewer nor the
    object lookup is called. *)
Theorem Admit_allows_details_and_other_resources a attr s :
  (isInstanceResource (schema.GroupResourceOf (admission.GetResource attr)) = true
   /\ admission.GetSubresource attr = "details")
  \/ (isDefinitionResource (schema.GroupResourceOf (admission.GetResource attr)) = false
      /\ isInstanceResource (schema.GroupResourceOf (admission.GetResource attr)) = false) ->
  Admit a attr s = Done None s.
Proof.
  unfold Admit.
  fold (isDefinitionResource (schema.GroupResourceOf (admission.GetResource attr))).
  fold (isInstanceResource (schema.GroupResourceOf (admission.GetResource attr))).
  intros [[Hinstance Hdetails] | [Hdefinition Hinstance]].
  - rewrite (instance_not_definition _ Hinstance), Hinstance, Hdetails.
    reflexivity.
  - rewrite Hdefinition, Hinstance. reflexivity.
Qed.

(** *** The permission query *)

Lemma no_slash_nothing_to_cut (r : string) :
  hasSlash r = false -> beforeSlash r = r /\ afterSlash r = "".
Proof.
  induction r as [|c r IH]; [easy|].
  cbn [hasSlash beforeSlash afterSlash].
  intros [Hc Hr]%orb_false_iff. rewrite Hc.
  destruct (IH Hr) as [-> ->]. easy.
Qed.

Lemma resourceName_prefers_template (meta : metav1.ObjectMeta) :
  resourceName meta =
  if String.eqb (metav1.GenerateName meta) "" then metav1.Name meta
  else metav1.GenerateName meta.
Proof.
  unfold resourceName. now destruct (metav1.GenerateName meta).
Qed.

(** The trace after [checkAccess] with a reviewer at hand: one more call,
    the query itself. *)
Lemma checkAccess_calls_reviewer_once a strategy sar attr s reviewer :
  sarClient a = Some reviewer ->
  trace (final (checkAccess a strategy sar attr s))
  = (trace s ++ [SubjectAccessReviewsCreate sar])%list.
Proof.
  intros Ha.
  destruct (reviewer sar (world s)) as [[resp err] w] eqn:Hr.
  rewrite (checkAccess_answered _ _ _ _ _ _ _ _ _ Ha Hr).
  now destruct err, resp.
Qed.

(** Both authorization paths follow one script. *)
Ltac query_built Ha Hres :=
  rewrite Hres; rewrite stringsFacts.SplitN_slash; unfold createQuery;
  match goal with
  | |- context [hasSlash ?r] =>
      let E := fresh "E" in
      destruct (hasSlash r) eqn:E;
      [ | destruct (no_slash_nothing_to_cut r E) as [-> ->] ]
  end;
  (eexists; split;
   [ apply (checkAccess_calls_reviewer_once _ _ _ _ _ _ Ha)
   | cbn; rewrite resourceName_prefers_template; reflexivity ]).

(** C5. For a Build and for a BuildConfig whose strategy maps to a resource,
    the query handed to the reviewer has verb "create" (whatever the
    operation of the request), the namespace of the request attributes, the
    resource and sub-resource obtained by cutting the mapped resource string
    at its first slash, and as name the name-generation template of the object
    when it is not empty, its literal name otherwise. *)
Theorem permission_query_scoped_to_create a attr s reviewer build buildConfig rb rbc :
  sarClient a = Some reviewer ->
  resourceForStrategyType (buildapi.Strategy (buildapi.Spec build)) = (rb, None) ->
  resourceForStrategyType (buildapi.Strategy (buildapi.bcSpec buildConfig)) = (rbc, None) ->
  (exists sar,
      trace (final (checkBuildAuthorization a build attr s))
      = (trace s ++ [SubjectAccessReviewsCreate sar])%list
      /\ authorization.ResourceAttributesOf (authorization.Spec sar)
         = Some (createQuery attr rb (buildapi.ObjectMeta build)))
  /\ (exists sar,
         trace (final (checkBuildConfigAuthorization a buildConfig attr s))
         = (trace s ++ [SubjectAccessReviewsCreate sar])%list
         /\ authorization.ResourceAttributesOf (authorization.Spec sar)
            = Some (createQuery attr rbc (buildapi.bcObjectMeta buildConfig))).
Proof.
  intros Ha Hb Hbc. split.
  - unfold checkBuildAuthorization. query_built Ha Hb.
  - unfold checkBuildConfigAuthorization. query_built Ha Hbc.
Qed.

(** *** The object resolver *)

Lemma served_reviewerCalls s (w : W) (c : Call) :
  isReviewerCall c = false -> reviewerCalls (served s w c) = reviewerCalls s.
Proof.
  intros Hc. unfold reviewerCalls, served. cbn [trace].
  rewrite filter_app. cbn [filter]. rewrite Hc. apply app_nil_r.
Qed.

(** C6. For a BuildRequest, a failed lookup of the referenced object and a
    failed conversion of the fetched object each end in a denial wrapping the
    error, with no call to the reviewer; and a request whose resource is
    neither the Instance nor the Definition resource ends in the rejection
    that names the unexpected resource. *)
Theorem buildRequest_resolution_failures a (req : buildapi.BuildRequest) attr s :
  (forall store wire e w,
      buildClient a = Some store ->
      isInstanceResource (schema.GroupResourceOf (admission.GetResource attr)) = true ->
      Builds_Get store (admission.GetNamespace attr)
        (metav1.Name (buildapi.brObjectMeta req)) (world s) = ((wire, e), w) ->
      forall cause,
        e = Some cause \/ (e = None /\ snd (ConvertBuild wire) = Some cause) ->
        checkBuildRequestAuthorization a req attr s =
        Done (Some (NewForbidden attr cause))
          (served s w (BuildsGet (admission.GetNamespace attr)
                         (metav1.Name (buildapi.brObjectMeta req))))
        /\ reviewerCalls (final (checkBuildRequestAuthorization a req attr s))
           = reviewerCalls s)
  /\ (forall store wire e w,
         buildClient a = Some store ->
         isDefinitionResource (schema.GroupResourceOf (admission.GetResource attr)) = true ->
         BuildConfigs_Get store (admission.GetNamespace attr)
           (metav1.Name (buildapi.brObjectMeta req)) (world s) = ((wire, e), w) ->
         forall cause,
           e = Some cause \/ (e = None /\ snd (ConvertBuildConfig wire) = Some cause) ->
           checkBuildRequestAuthorization a req attr s =
           Done (Some (NewForbidden attr cause))
             (served s w (BuildConfigsGet (admission.GetNamespace attr)
                            (metav1.Name (buildapi.brObjectMeta req))))
           /\ reviewerCalls (final (checkBuildRequestAuthorization a req attr s))
              = reviewerCalls s)
  /\ (isInstanceResource (schema.GroupResourceOf (admission.GetResource attr)) = false ->
      isDefinitionResource (schema.GroupResourceOf (admission.GetResource attr)) = false ->
      checkBuildRequestAuthorization a req attr s =
      Done (Some (NewForbidden attr
                    (Errorf ("Unknown resource type "
                             ++ GroupVersionResourceString (admission.GetResource attr)
                             ++ " for BuildRequest"))))
        s).
Proof.
  unfold checkBuildRequestAuthorization.
  fold (isDefinitionResource (schema.GroupResourceOf (admission.GetResource attr))).
  fold (isInstanceResource (schema.GroupResourceOf (admission.GetResource attr))).
  split; [|split].
  - intros store wire e w Ha Hgr Hget cause Hcause.
    rewrite Hgr. run. rewrite Ha, Hget.
    destruct Hcause as [-> | [-> Hconv]].
    + split; [reflexivity | now apply served_reviewerCalls].
    + destruct (ConvertBuild wire) as [internal err]. cbn [snd] in Hconv.
      rewrite Hconv. split; [reflexivity | now apply served_reviewerCalls].
  - intros store wire e w Ha Hgr Hget cause Hcause.
    destruct (isInstanceResource _) eqn:Hinstance;
      [ apply instance_not_definition in Hinstance; congruence |].
    rewrite Hgr. run. rewrite Ha, Hget.
    destruct Hcause as [-> | [-> Hconv]].
    + split; [reflexivity | now apply served_reviewerCalls].
    + destruct (ConvertBuildConfig wire) as [internal err]. cbn [snd] in Hconv.
      rewrite Hconv. split; [reflexivity | now apply served_reviewerCalls].
  - intros -> ->. reflexivity.
Qed.

(** *** Reachability of the last case of the resolver *)

(** The trace only grows. *)
Lemma checkAccess_trace_le a strategy sar attr s :
  List.length (trace s) <= List.length (trace (final (checkAccess a strategy sar attr s))).
Proof.
  destruct (sarClient a) as [reviewer|] eqn:Ha.
  - rewrite (checkAccess_calls_reviewer_once _ _ _ _ _ _ Ha), length_app. lia.
  - now rewrite (checkAccess_nil_reviewer _ _ _ _ _ Ha).
Qed.

Lemma checkBuildAuthorization_trace_le a (build : buildapi.Build) attr s :
  List.length (trace s)
  <= List.length (trace (final (checkBuildAuthorization a build attr s))).
Proof.
  unfold checkBuildAuthorization.
  destruct (resourceForStrategyType _) as [resource [e|]]; [reflexivity|].
  destruct (strings.SplitN _ _ _); [reflexivity|].
  apply checkAccess_trace_le.
Qed.

Lemma checkBuildConfigAuthorization_trace_le a (buildConfig : buildapi.BuildConfig) attr s :
  List.length (trace s)
  <= List.length (trace (final (checkBuildConfigAuthorization a buildConfig attr s))).
Proof.
  unfold checkBuildConfigAuthorization.
  destruct (resourceForStrategyType _) as [resource [e|]]; [reflexivity|].
  destruct (strings.SplitN _ _ _); [reflexivity|].
  apply checkAccess_trace_le.
Qed.

(** On the Instance and the Definition resource the resolver starts with a
    lookup: it panics on a nil client, and otherwise the trace gets longer. *)
Lemma resolver_looks_up a (req : buildapi.BuildRequest) attr s :
  isInstanceResource (schema.GroupResourceOf (admission.GetResource attr))
  || isDefinitionResource (schema.GroupResourceOf (admission.GetResource attr)) = true ->
  checkBuildRequestAuthorization a req attr s = Panic s
  \/ List.length (trace s)
     < List.length (trace (final (checkBuildRequestAuthorization a req attr s))).
Proof.
  unfold checkBuildRequestAuthorization.
  fold (isDefinitionResource (schema.GroupResourceOf (admission.GetResource attr))).
  fold (isInstanceResource (schema.GroupResourceOf (admission.GetResource attr))).
  intros Hgr.
  destruct (isInstanceResource _); [|cbn [orb] in Hgr; rewrite Hgr]; run;
    (destruct (buildClient a) as [store|]; [right | now left]).
  - destruct (Builds_Get _ _ _ _) as [[wire [e|]] w]; [cbn; rewrite length_app; cbn; lia|].
    destruct (ConvertBuild wire) as [internal [e|]]; [cbn; rewrite length_app; cbn; lia|].
    eapply Nat.lt_le_trans; [|apply checkBuildAuthorization_trace_le].
    cbn. rewrite length_app. cbn. lia.
  - destruct (BuildConfigs_Get _ _ _ _) as [[wire [e|]] w];
      [cbn; rewrite length_app; cbn; lia|].
    destruct (ConvertBuildConfig wire) as [internal [e|]];
      [cbn; rewrite length_app; cbn; lia|].
    eapply Nat.lt_le_trans; [|apply checkBuildConfigAuthorization_trace_le].
    cbn. rewrite length_app. cbn. lia.
Qed.

(** C9. The "Unknown resource type ... for BuildRequest" case of
    [checkBuildRequestAuthorization] cannot be reached through [Admit]: on a
    BuildRequest, [Admit] either allows at once or hands over to the resolver
    with the builds or buildconfigs resource (current or legacy group), where
    the resolver does not take that case; so [Admit] never ends in that
    rejection. *)
Theorem unknown_resource_case_unreachable_through_Admit a attr
    (req : buildapi.BuildRequest) s :
  admission.GetObject attr = runtime.BuildRequest req ->
  (Admit a attr s = Done None s
   \/ (isInstanceResource (schema.GroupResourceOf (admission.GetResource attr))
       || isDefinitionResource (schema.GroupResourceOf (admission.GetResource attr)) = true
       /\ Admit a attr s = checkBuildRequestAuthorization a req attr s
       /\ checkBuildRequestAuthorization a req attr s
          <> Done (Some (unknownResourceType attr)) s))
  /\ Admit a attr s <> Done (Some (unknownResourceType attr)) s.
Proof.
  intros Hobj.
  assert (Hcases :
    Admit a attr s = Done None s
    \/ (isInstanceResource (schema.GroupResourceOf (admission.GetResource attr))
        || isDefinitionResource (schema.GroupResourceOf (admission.GetResource attr)) = true
        /\ Admit a attr s = checkBuildRequestAuthorization a req attr s)).
  { unfold Admit. rewrite Hobj.
    fold (isDefinitionResource (schema.GroupResourceOf (admission.GetResource attr))).
    fold (isInstanceResource (schema.GroupResourceOf (admission.GetResource attr))).
    destruct (isDefinitionResource _) eqn:Hdefinition;
      [|destruct (isInstanceResource _) eqn:Hinstance; [|now left]];
      try (destruct (String.eqb _ "details"); [now left|]);
      (destruct (match admission.GetOldObject attr with
                 | Some old => IsOnlyMutatingGCFields (runtime.BuildRequest req) old
                 | None => false
                 end); [now left | right; split; [|reflexivity]]).
    - apply orb_true_r.
    - reflexivity. }
  assert (Hnot : isInstanceResource (schema.GroupResourceOf (admission.GetResource attr))
                 || isDefinitionResource (schema.GroupResourceOf (admission.GetResource attr))
                 = true ->
                 checkBuildRequestAuthorization a req attr s
                 <> Done (Some (unknownResourceType attr)) s).
  { intros Hgr Heq.
    destruct (resolver_looks_up a req attr s Hgr) as [Hpanic | Hgrows].
    - congruence.
    - rewrite Heq in Hgrows. cbn in Hgrows. lia. }
  split.
  - destruct Hcases as [Hallow | [Hgr Hhandover]]; [now left | right; auto].
  - destruct Hcases as [Hallow | [Hgr Hhandover]].
    + rewrite Hallow. discriminate.
    + rewrite Hhandover. auto.
Qed.

End GateFacts.

(** ** Further properties of the gate *)

Section AdmissionFacts.
Context {I : Imports} {W : Type}.
Implicit Types (a : buildByStrategy (W := W)) (s : St (W := W)).
Implicit Types (attr : admission.Attributes) (strategy : buildapi.BuildStrategy).

Ltac plumbing :=
  unfold bind, ret, panic, sarClient_Create, buildClient_Builds_Get,
    buildClient_BuildConfigs_Get in *.

(** The two bypasses of [Admit], and what is left when neither applies. *)
Lemma Admit_bypassed a attr s :
  checkedResource attr = false \/ linkageOnlyUpdate attr = true ->
  Admit a attr s = Done None s.
Proof.
  unfold Admit, checkedResource, linkageOnlyUpdate.
  fold (isDefinitionResource (schema.GroupResourceOf (admission.GetResource attr))).
  fold (isInstanceResource (schema.GroupResourceOf (admission.GetResource attr))).
  intros [Hres | Hgc].
  - apply orb_false_iff in Hres. destruct Hres as [-> Hres].
    destruct (isInstanceResource _); [|reflexivity].
    cbn [andb] in Hres. apply negb_false_iff in Hres. now rewrite Hres.
  - rewrite Hgc.
    destruct (isDefinitionResource _); [reflexivity|].
    destruct (isInstanceResource _); [|reflexivity].
    now destruct (String.eqb _ "details").
Qed.

Lemma Admit_outside_bypasses a attr s :
  checkedResource attr = true ->
  linkageOnlyUpdate attr = false ->
  Admit a attr s =
  match admission.GetObject attr with
  | runtime.Build obj => checkBuildAuthorization a obj attr s
  | runtime.BuildConfig obj => checkBuildConfigAuthorization a obj attr s
  | runtime.BuildRequest obj => checkBuildRequestAuthorization a obj attr s
  | runtime.Other kind =>
      Done (Some (NewForbidden attr
                    (Errorf ("unrecognized request object "
                             ++ GoSyntaxObject (runtime.Other kind)))))
        s
  end.
Proof.
  unfold Admit, checkedResource, linkageOnlyUpdate.
  fold (isDefinitionResource (schema.GroupResourceOf (admission.GetResource attr))).
  fold (isInstanceResource (schema.GroupResourceOf (admission.GetResource attr))).
  intros Hres Hgc. rewrite Hgc.
  destruct (isDefinitionResource _).
  - now destruct (admission.GetObject attr).
  - cbn [orb] in Hres. apply andb_true_iff in Hres. destruct Hres as [-> Hsub].
    apply negb_true_iff in Hsub. rewrite Hsub.
    now destruct (admission.GetObject attr).
Qed.

(** X1. Outside the bypasses, an object that is neither a Build, a
    BuildConfig nor a BuildRequest is rejected as unrecognized, and no
    collaborator is called. *)
Theorem Admit_rejects_unrecognized_object a attr s (kind : string) :
  checkedResource attr = true ->
  linkageOnlyUpdate attr = false ->
  admission.GetObject attr = runtime.Other kind ->
  Admit a attr s =
  Done (Some (NewForbidden attr
                (Errorf ("unrecognized request object "
                         ++ GoSyntaxObject (runtime.Other kind)))))
    s.
Proof.
  intros Hres Hgc Hobj.
  rewrite (Admit_outside_bypasses a attr s Hres Hgc), Hobj. reflexivity.
Qed.

(** X2. The [details] exemption belongs to the Instance resource only: a
    BuildConfig sent to the [details] sub-resource of the Definition resource
    goes through the strategy check like any other. *)
Theorem details_of_definition_resource_is_checked a attr s
    (obj : buildapi.BuildConfig) :
  isDefinitionResource (schema.GroupResourceOf (admission.GetResource attr)) = true ->
  admission.GetSubresource attr = "details" ->
  linkageOnlyUpdate attr = false ->
  admission.GetObject attr = runtime.BuildConfig obj ->
  Admit a attr s = checkBuildConfigAuthorization a obj attr s.
Proof.
  intros Hdef _ Hgc Hobj.
  rewrite (Admit_outside_bypasses a attr s); [now rewrite Hobj | | exact Hgc].
  unfold checkedResource. now rewrite Hdef.
Qed.

(** X3. A Build or a BuildConfig with no strategy variant populated is
    rejected with the mapper's error before any collaborator is called, even
    by a gate that has no client at all. *)
Theorem Admit_rejects_unpopulated_strategy a attr s strategy :
  checkedResource attr = true ->
  linkageOnlyUpdate attr = false ->
  (exists obj, admission.GetObject attr = runtime.Build obj
               /\ buildapi.Strategy (buildapi.Spec obj) = strategy)
  \/ (exists obj, admission.GetObject attr = runtime.BuildConfig obj
                  /\ buildapi.Strategy (buildapi.bcSpec obj) = strategy) ->
  buildapi.DockerStrategy strategy = None ->
  buildapi.CustomStrategy strategy = None ->
  buildapi.SourceStrategy strategy = None ->
  buildapi.JenkinsPipelineStrategy strategy = None ->
  Admit a attr s =
  Done (Some (NewForbidden attr
                (Errorf ("unrecognized build strategy: " ++ GoSyntaxStrategy strategy))))
    s.
Proof.
  intros Hres Hgc Hobj HD HC HS HJ.
  rewrite (Admit_outside_bypasses a attr s Hres Hgc).
  destruct Hobj as [(obj & -> & Hs) | (obj & -> & Hs)];
    [unfold checkBuildAuthorization | unfold checkBuildConfigAuthorization];
    rewrite Hs; unfold resourceForStrategyType; rewrite HD, HC, HS, HJ;
    reflexivity.
Qed.

(** X4. The two direct paths are one check: a Build and a BuildConfig with
    the same strategy and the same metadata get the same query, the same
    verdict and the same trace. *)
Theorem build_and_buildConfig_checked_alike a attr s
    (build : buildapi.Build) (buildConfig : buildapi.BuildConfig) :
  buildapi.Strategy (buildapi.Spec build)
  = buildapi.Strategy (buildapi.bcSpec buildConfig) ->
  buildapi.ObjectMeta build = buildapi.bcObjectMeta buildConfig ->
  checkBuildAuthorization a build attr s
  = checkBuildConfigAuthorization a buildConfig attr s.
Proof.
  intros Hs Hm. unfold checkBuildAuthorization, checkBuildConfigAuthorization.
  rewrite Hs, Hm. reflexivity.
Qed.

(** X5. A BuildRequest whose referenced object is found and converts is
    decided as that object would be if it had been submitted directly, from
    the state the lookup left: on the Instance resource as a Build, on the
    Definition resource as a BuildConfig. *)
Theorem resolved_request_checked_as_direct_object a (req : buildapi.BuildRequest)
    attr s (store : BuildInterface) :
  buildClient a = Some store ->
  (forall wire w internal,
      isInstanceResource (schema.GroupResourceOf (admission.GetResource attr)) = true ->
      Builds_Get store (admission.GetNamespace attr)
        (metav1.Name (buildapi.brObjectMeta req)) (world s) = ((wire, None), w) ->
      ConvertBuild wire = (internal, None) ->
      checkBuildRequestAuthorization a req attr s
      = checkBuildAuthorization a internal attr
          (served s w (BuildsGet (admission.GetNamespace attr)
                         (metav1.Name (buildapi.brObjectMeta req)))))
  /\ (forall wire w internal,
         isDefinitionResource (schema.GroupResourceOf (admission.GetResource attr)) = true ->
         BuildConfigs_Get store (admission.GetNamespace attr)
           (metav1.Name (buildapi.brObjectMeta req)) (world s) = ((wire, None), w) ->
         ConvertBuildConfig wire = (internal, None) ->
         checkBuildRequestAuthorization a req attr s
         = checkBuildConfigAuthorization a internal attr
             (served s w (BuildConfigsGet (admission.GetNamespace attr)
                            (metav1.Name (buildapi.brObjectMeta req))))).
Proof.
  intros Ha. unfold checkBuildRequestAuthorization.
  fold (isDefinitionResource (schema.GroupResourceOf (admission.GetResource attr))).
  fold (isInstanceResource (schema.GroupResourceOf (admission.GetResource attr))).
  split; intros wire w internal Hgr Hget Hconv.
  - rewrite Hgr. plumbing. now rewrite Ha, Hget, Hconv.
  - destruct (isInstanceResource _) eqn:Hinstance;
      [apply instance_not_definition in Hinstance; congruence|].
    rewrite Hgr. plumbing. now rewrite Ha, Hget, Hconv.
Qed.

(** *** Allowing, calling, returning *)

Lemma checkAccess_allow_inv a strategy sar attr s s' :
  checkAccess a strategy sar attr s = Done None s' ->
  exists reviewer r w,
    sarClient a = Some reviewer
    /\ reviewer sar (world s) = ((Some r, None), w)
    /\ authorization.Allowed (authorization.Status r) = true
    /\ s' = served s w (SubjectAccessReviewsCreate sar).
Proof.
  intros Hallow.
  destruct (sarClient a) as [reviewer|] eqn:Ha;
    [|rewrite (checkAccess_nil_reviewer _ _ _ _ _ Ha) in Hallow; discriminate].
  destruct (reviewer sar (world s)) as [[resp err] w] eqn:Hr.
  rewrite (checkAccess_answered _ _ _ _ _ _ _ _ _ Ha Hr) in Hallow.
  destruct err as [e|]; [discriminate|].
  destruct resp as [r|]; [|discriminate].
  destruct (authorization.Allowed (authorization.Status r)) eqn:Hallowed; [|discriminate].
  injection Hallow as <-. exists reviewer, r, w. auto.
Qed.

(** What a verdict of "allow" from a direct path tells. *)
Ltac direct_allow_inv :=
  match goal with
  | |- context [resourceForStrategyType ?st] =>
      destruct (resourceForStrategyType st) as [resource [e|]]; [discriminate|]
  end;
  match goal with
  | |- context [strings.SplitN ?r ?sep ?n] =>
      destruct (strings.SplitN r sep n) as [|resourceType rest]; [discriminate|]
  end;
  let Hallow := fresh "Hallow" in
  intros Hallow; apply checkAccess_allow_inv in Hallow;
  destruct Hallow as (reviewer & r & w & ? & ? & ? & ?); eauto 10.

Lemma checkBuildAuthorization_allow_inv a (build : buildapi.Build) attr s s' :
  checkBuildAuthorization a build attr s = Done None s' ->
  exists reviewer sar r w,
    sarClient a = Some reviewer
    /\ reviewer sar (world s) = ((Some r, None), w)
    /\ authorization.Allowed (authorization.Status r) = true
    /\ s' = served s w (SubjectAccessReviewsCreate sar).
Proof. unfold checkBuildAuthorization. direct_allow_inv. Qed.

Lemma checkBuildConfigAuthorization_allow_inv a (buildConfig : buildapi.BuildConfig)
    attr s s' :
  checkBuildConfigAuthorization a buildConfig attr s = Done None s' ->
  exists reviewer sar r w,
    sarClient a = Some reviewer
    /\ reviewer sar (world s) = ((Some r, None), w)
    /\ authorization.Allowed (authorization.Status r) = true
    /\ s' = served s w (SubjectAccessReviewsCreate sar).
Proof. unfold checkBuildConfigAuthorization. direct_allow_inv. Qed.

Lemma checkBuildRequestAuthorization_allow_inv a (req : buildapi.BuildRequest)
    attr s s' :
  checkBuildRequestAuthorization a req attr s = Done None s' ->
  exists reviewer sar r w s1,
    sarClient a = Some reviewer
    /\ reviewer sar (world s1) = ((Some r, None), w)
    /\ authorization.Allowed (authorization.Status r) = true
    /\ reviewerCalls s1 = reviewerCalls s
    /\ s' = served s1 w (SubjectAccessReviewsCreate sar).
Proof.
  unfold checkBuildRequestAuthorization.
  destruct (_ || _); [|destruct (_ || _); [|discriminate]]; plumbing;
    (destruct (buildClient a) as [store|]; [|discriminate]).
  - destruct (Builds_Get _ _ _ _) as [[wire [e|]] w0]; [discriminate|].
    destruct (ConvertBuild wire) as [internal [e|]]; [discriminate|].
    intros (reviewer & sar & r & w & Ha & Hr & Hal & ->)%checkBuildAuthorization_allow_inv.
    exists reviewer, sar, r, w.
    match goal with H : reviewer sar (world ?s1) = _ |- _ => exists s1 end.
    repeat (split; [assumption || reflexivity|]).
    split; [now apply served_reviewerCalls | reflexivity].
  - destruct (BuildConfigs_Get _ _ _ _) as [[wire [e|]] w0]; [discriminate|].
    destruct (ConvertBuildConfig wire) as [internal [e|]]; [discriminate|].
    intros (reviewer & sar & r & w & Ha & Hr & Hal & ->)%checkBuildConfigAuthorization_allow_inv.
    exists reviewer, sar, r, w.
    match goal with H : reviewer sar (world ?s1) = _ |- _ => exists s1 end.
    repeat (split; [assumption || reflexivity|]).
    split; [now apply served_reviewerCalls | reflexivity].
Qed.

(** X6. The gate fails closed as a whole: when [Admit] allows, either one of
    the two bypasses applied and nothing was called, or the reviewer was
    asked after at most a lookup, returned no error and answered allowed=true,
    and that call is the last thing that happened. *)
Theorem Admit_allows_only_by_bypass_or_review a attr s s' :
  Admit a attr s = Done None s' ->
  (s' = s /\ (checkedResource attr = false \/ linkageOnlyUpdate attr = true))
  \/ (checkedResource attr = true
      /\ linkageOnlyUpdate attr = false
      /\ exists reviewer sar r w s1,
          sarClient a = Some reviewer
          /\ reviewer sar (world s1) = ((Some r, None), w)
          /\ authorization.Allowed (authorization.Status r) = true
          /\ reviewerCalls s1 = reviewerCalls s
          /\ s' = served s1 w (SubjectAccessReviewsCreate sar)).
Proof.
  destruct (checkedResource attr) eqn:Hres.
  - destruct (linkageOnlyUpdate attr) eqn:Hgc.
    + rewrite (Admit_bypassed a attr s) by auto.
      intros [= <-]. left. auto.
    + rewrite (Admit_outside_bypasses a attr s Hres Hgc).
      intros Hallow. right. split; [reflexivity|]. split; [reflexivity|].
      destruct (admission.GetObject attr) as [obj|obj|obj|kind].
      * apply checkBuildAuthorization_allow_inv in Hallow.
        destruct Hallow as (reviewer & sar & r & w & ? & ? & ? & ?).
        exists reviewer, sar, r, w, s. auto.
      * apply checkBuildConfigAuthorization_allow_inv in Hallow.
        destruct Hallow as (reviewer & sar & r & w & ? & ? & ? & ?).
        exists reviewer, sar, r, w, s. auto.
      * now apply checkBuildRequestAuthorization_allow_inv in Hallow.
      * discriminate.
  - rewrite (Admit_bypassed a attr s) by auto.
    intros [= <-]. left. auto.
Qed.

(** The calls of a direct path: none, or the one query to the reviewer. *)
Lemma checkAccess_calls a strategy sar attr s :
  exists reviews,
    trace (final (checkAccess a strategy sar attr s)) = (trace s ++ reviews)%list
    /\ (reviews = [] \/ reviews = [SubjectAccessReviewsCreate sar]).
Proof.
  destruct (sarClient a) as [reviewer|] eqn:Ha.
  - exists [SubjectAccessReviewsCreate sar]. split; [|now right].
    apply (checkAccess_calls_reviewer_once _ _ _ _ _ _ Ha).
  - exists []. rewrite (checkAccess_nil_reviewer _ _ _ _ _ Ha), app_nil_r. auto.
Qed.

Ltac direct_calls :=
  match goal with
  | |- context [resourceForStrategyType ?st] =>
      destruct (resourceForStrategyType st) as [resource [e|]];
      [exists []; rewrite app_nil_r; auto|]
  end;
  match goal with
  | |- context [strings.SplitN ?r ?sep ?n] =>
      destruct (strings.SplitN r sep n) as [|resourceType rest];
      [exists []; rewrite app_nil_r; auto|]
  end;
  match goal with
  | |- context [checkAccess ?a ?st ?sar ?attr ?s] =>
      destruct (checkAccess_calls a st sar attr s) as (reviews & Htrace & Hshape);
      exists reviews; split; [exact Htrace|];
      destruct Hshape as [-> | ->]; eauto
  end.

Lemma checkBuildAuthorization_calls a (build : buildapi.Build) attr s :
  exists reviews,
    trace (final (checkBuildAuthorization a build attr s)) = (trace s ++ reviews)%list
    /\ (reviews = [] \/ exists sar, reviews = [SubjectAccessReviewsCreate sar]).
Proof. unfold checkBuildAuthorization. direct_calls. Qed.

Lemma checkBuildConfigAuthorization_calls a (buildConfig : buildapi.BuildConfig) attr s :
  exists reviews,
    trace (final (checkBuildConfigAuthorization a buildConfig attr s))
    = (trace s ++ reviews)%list
    /\ (reviews = [] \/ exists sar, reviews = [SubjectAccessReviewsCreate sar]).
Proof. unfold checkBuildConfigAuthorization. direct_calls. Qed.

Lemma lookupThenReview_direct (reviews : list Call) :
  reviews = [] \/ (exists sar, reviews = [SubjectAccessReviewsCreate sar]) ->
  lookupThenReview reviews = true.
Proof. now intros [-> | [sar ->]]. Qed.

Lemma lookupThenReview_after_lookup (get : Call) (reviews : list Call) :
  isReviewerCall get = false ->
  reviews = [] \/ (exists sar, reviews = [SubjectAccessReviewsCreate sar]) ->
  lookupThenReview (get :: reviews) = true.
Proof. intros Hget [-> | [sar ->]]; cbn; [|rewrite Hget]; reflexivity. Qed.

Lemma checkBuildRequestAuthorization_calls a (req : buildapi.BuildRequest) attr s :
  exists l,
    trace (final (checkBuildRequestAuthorization a req attr s)) = (trace s ++ l)%list
    /\ lookupThenReview l = true.
Proof.
  unfold checkBuildRequestAuthorization.
  destruct (_ || _); [|destruct (_ || _)]; plumbing;
    try (destruct (buildClient a) as [store|]);
    try (exists []; rewrite app_nil_r; split; reflexivity).
  - destruct (Builds_Get _ _ _ _) as [[wire [e|]] w0];
      [eexists [_]; split; reflexivity|].
    destruct (ConvertBuild wire) as [internal [e|]];
      [eexists [_]; split; reflexivity|].
    match goal with
    | |- context [checkBuildAuthorization ?a ?b ?attr ?s1] =>
        destruct (checkBuildAuthorization_calls a b attr s1) as (reviews & -> & Hshape)
    end.
    eexists (_ :: reviews). split.
    + cbn [served trace]. now rewrite <- app_assoc.
    + now apply lookupThenReview_after_lookup.
  - destruct (BuildConfigs_Get _ _ _ _) as [[wire [e|]] w0];
      [eexists [_]; split; reflexivity|].
    destruct (ConvertBuildConfig wire) as [internal [e|]];
      [eexists [_]; split; reflexivity|].
    match goal with
    | |- context [checkBuildConfigAuthorization ?a ?b ?attr ?s1] =>
        destruct (checkBuildConfigAuthorization_calls a b attr s1)
          as (reviews & -> & Hshape)
    end.
    eexists (_ :: reviews). split.
    + cbn [served trace]. now rewrite <- app_assoc.
    + now apply lookupThenReview_after_lookup.
Qed.

(** X7. One admission calls each collaborator at most once and in a fixed
    order: the trace grows by nothing, by a single call, or by one lookup
    followed by one call to the reviewer. *)
Theorem Admit_calls_each_collaborator_at_most_once a attr s :
  exists l,
    trace (final (Admit a attr s)) = (trace s ++ l)%list
    /\ lookupThenReview l = true.
Proof.
  destruct (checkedResource attr) eqn:Hres;
    [destruct (linkageOnlyUpdate attr) eqn:Hgc|];
    try (rewrite (Admit_bypassed a attr s) by auto;
         exists []; rewrite app_nil_r; split; reflexivity).
  rewrite (Admit_outside_bypasses a attr s Hres Hgc).
  destruct (admission.GetObject attr) as [obj|obj|obj|kind].
  - destruct (checkBuildAuthorization_calls a obj attr s) as (reviews & Htrace & Hshape).
    exists reviews. split; [exact Htrace | now apply lookupThenReview_direct].
  - destruct (checkBuildConfigAuthorization_calls a obj attr s)
      as (reviews & Htrace & Hshape).
    exists reviews. split; [exact Htrace | now apply lookupThenReview_direct].
  - apply checkBuildRequestAuthorization_calls.
  - exists []. rewrite app_nil_r. split; reflexivity.
Qed.

(** *** Returning *)






(** *** Wiring *)

(** X9. The two setters are independent: in either order they lead to the
    same gate, which passes [ValidateInitialization] exactly when both
    arguments are non-nil, and they leave the handled operations alone. *)
Theorem setters_commute_and_validate a
    (c : option SubjectAccessReviewInterface) (b : option BuildInterface) :
  SetOpenshiftInternalBuildClient (SetInternalKubeClientSet a c) b
  = SetInternalKubeClientSet (SetOpenshiftInternalBuildClient a b) c
  /\ (ValidateInitialization
        (SetOpenshiftInternalBuildClient (SetInternalKubeClientSet a c) b) = None
      <-> c <> None /\ b <> None)
  /\ Handler (SetOpenshiftInternalBuildClient (SetInternalKubeClientSet a c) b)
     = Handler a.
Proof.
  split; [reflexivity|]. split; [|reflexivity].
  unfold ValidateInitialization. cbn.
  destruct b, c; cbn; split; try discriminate; try tauto;
    try (split; discriminate); intros [? ?]; congruence.
Qed.

End AdmissionFacts.

(** ** Further properties of the strategy mapper *)

Section StrategyFacts.
Context {I : Imports}.

(** X10. The mapper errs exactly when no variant is populated, and that is
    also exactly when [strategyTypeString] is empty: a denial built after a
    successful mapping always names a strategy type. *)
Theorem mapper_errs_iff_nothing_populated (strategy : buildapi.BuildStrategy) :
  (snd (resourceForStrategyType strategy) <> None
   <-> buildapi.DockerStrategy strategy = None
       /\ buildapi.CustomStrategy strategy = None
       /\ buildapi.SourceStrategy strategy = None
       /\ buildapi.JenkinsPipelineStrategy strategy = None)
  /\ (strategyTypeString strategy = ""
      <-> snd (resourceForStrategyType strategy) <> None).
Proof.
  unfold resourceForStrategyType, strategyTypeString.
  destruct (buildapi.DockerStrategy strategy) as [[[policy|]]|];
    [cbn; destruct (String.eqb policy ImageOptimizationNone)| |];
    cbn; try (split; split; try discriminate; try tauto;
              intros (H & _); discriminate).
  destruct (buildapi.CustomStrategy strategy), (buildapi.SourceStrategy strategy),
    (buildapi.JenkinsPipelineStrategy strategy); cbn;
    split; split; try discriminate; try tauto; try congruence;
    try (intros (_ & H1 & H2 & H3); discriminate).
Qed.

(** Equal identifiers come from equal resource strings. *)
Lemma Resource_inj (x y : string) : Resource x = Resource y -> x = y.
Proof. unfold Resource. congruence. Qed.

(** The outcomes of the mapper, each with the variant it stands for. *)
Lemma mapper_cases (strategy : buildapi.BuildStrategy) :
  snd (resourceForStrategyType strategy) <> None
  \/ ((exists d policy,
         buildapi.DockerStrategy strategy = Some d
         /\ buildapi.ImageOptimizationPolicy d = Some policy
         /\ policy <> ImageOptimizationNone)
      /\ firstPopulated strategy = Some DockerLike
      /\ resourceForStrategyType strategy = (Resource OptimizedDockerBuildResource, None))
  \/ (firstPopulated strategy = Some DockerLike
      /\ resourceForStrategyType strategy = (Resource DockerBuildResource, None))
  \/ (firstPopulated strategy = Some CustomLike
      /\ resourceForStrategyType strategy = (Resource CustomBuildResource, None))
  \/ (firstPopulated strategy = Some SourceLike
      /\ resourceForStrategyType strategy = (Resource SourceBuildResource, None))
  \/ (firstPopulated strategy = Some PipelineLike
      /\ resourceForStrategyType strategy
         = (Resource JenkinsPipelineBuildResource, None)).
Proof.
  unfold resourceForStrategyType, firstPopulated, priority.
  cbn [find populated].
  destruct (buildapi.DockerStrategy strategy) as [[[policy|]]|]; cbn [notNil].
  - cbn. destruct (String.eqb_spec policy ImageOptimizationNone); cbn.
    + right; right; left. auto.
    + right; left. split; [|auto].
      exists {| buildapi.ImageOptimizationPolicy := Some policy |}, policy. auto.
  - right; right; left. auto.
  - destruct (buildapi.CustomStrategy strategy); cbn [notNil];
      [right; right; right; left; auto|].
    destruct (buildapi.SourceStrategy strategy); cbn [notNil];
      [right; right; right; right; left; auto|].
    destruct (buildapi.JenkinsPipelineStrategy strategy); cbn [notNil];
      [right; right; right; right; right; auto|].
    left. discriminate.
Qed.

(** X11. When the five resource names are pairwise distinct, the identifier
    tells the variant: two strategies mapped without error to the same
    identifier have the same first populated variant, and the optimized
    Docker resource is given to Docker strategies with a set policy only. *)
Theorem identifier_determines_variant (s1 s2 : buildapi.BuildStrategy) :
  NoDup [OptimizedDockerBuildResource; DockerBuildResource; CustomBuildResource;
         SourceBuildResource; JenkinsPipelineBuildResource] ->
  snd (resourceForStrategyType s1) = None ->
  resourceForStrategyType s1 = resourceForStrategyType s2 ->
  firstPopulated s1 = firstPopulated s2
  /\ (fst (resourceForStrategyType s1) = Resource OptimizedDockerBuildResource ->
      exists d policy,
        buildapi.DockerStrategy s1 = Some d
        /\ buildapi.ImageOptimizationPolicy d = Some policy
        /\ policy <> ImageOptimizationNone).
Proof.
  intros Hdistinct Hok Heq.
  repeat match goal with
    | H : NoDup (_ :: _) |- _ =>
        let Hnotin := fresh "Hnotin" in
        apply NoDup_cons_iff in H; destruct H as [Hnotin H]; cbn [In] in Hnotin
    end.
  assert (Hok2 : snd (resourceForStrategyType s2) = None) by now rewrite <- Heq.
  destruct (mapper_cases s1)
    as [He | [(Hp1 & -> & H1) | [(-> & H1) | [(-> & H1) | [(-> & H1) | (-> & H1)]]]]];
    [congruence | ..];
    (destruct (mapper_cases s2)
      as [He | [(Hp2 & -> & H2) | [(-> & H2) | [(-> & H2) | [(-> & H2) | (-> & H2)]]]]];
     [congruence | ..]);
    rewrite H1 in *; rewrite H2 in Heq;
    apply (f_equal fst) in Heq; cbn [fst] in Heq; apply Resource_inj in Heq;
    pose proof (eq_sym Heq) as Heq';
    (split;
     [ first [reflexivity | exfalso; tauto]
     | cbn [fst]; intros Hopt; apply Resource_inj in Hopt;
       pose proof (eq_sym Hopt) as Hopt';
       first [exact Hp1 | exfalso; tauto] ]).
Qed.

End StrategyFacts.


(** ** The resource string and the query *)

Section QueryFacts.
Context {I : Imports} {W : Type}.
Implicit Types (a : buildByStrategy (W := W)) (s : St (W := W)).

Lemma beforeSlash_has_no_slash (r : string) : hasSlash (beforeSlash r) = false.
Proof.
  induction r as [|c r IH]; [reflexivity|].
  cbn [beforeSlash]. destruct (Ascii.eqb c "/") eqn:Hc; [reflexivity|].
  cbn [hasSlash]. now rewrite Hc, IH.
Qed.

Lemma cut_at_slash_recombines (r : string) :
  hasSlash r = true -> beforeSlash r ++ "/" ++ afterSlash r = r.
Proof.
  induction r as [|c r IH]; [discriminate|].
  cbn [hasSlash beforeSlash afterSlash].
  destruct (Ascii.eqb_spec c "/") as [->|Hc]; [reflexivity|].
  cbn [orb]. intros Hr. cbn [append] in *. now rewrite (IH Hr).
Qed.

(** X12. Cutting the mapped resource string loses nothing: in the query sent
    for a Build, the resource holds no slash, the group is that of the mapped
    identifier, and resource and sub-resource joined by a slash give the
    mapped string back; a mapped string without a slash is the resource as it
    is, with an empty sub-resource. *)
Theorem query_cuts_resource_string_losslessly a attr s reviewer
    (build : buildapi.Build) (rb : schema.GroupResource) :
  sarClient a = Some reviewer ->
  resourceForStrategyType (buildapi.Strategy (buildapi.Spec build)) = (rb, None) ->
  exists sar ra,
    trace (final (checkBuildAuthorization a build attr s))
    = (trace s ++ [SubjectAccessReviewsCreate sar])%list
    /\ authorization.ResourceAttributesOf (authorization.Spec sar) = Some ra
    /\ authorization.Group ra = schema.Group rb
    /\ hasSlash (authorization.Resource ra) = false
    /\ (if hasSlash (schema.Resource rb)
        then authorization.Resource ra ++ "/" ++ authorization.Subresource ra
             = schema.Resource rb
        else authorization.Resource ra = schema.Resource rb
             /\ authorization.Subresource ra = "").
Proof.
  intros Ha Hres. unfold checkBuildAuthorization.
  rewrite Hres, stringsFacts.SplitN_slash.
  destruct (hasSlash (schema.Resource rb)) eqn:Hslash;
    (eexists; eexists; split;
     [apply (checkAccess_calls_reviewer_once _ _ _ _ _ _ Ha)|];
     split; [reflexivity|]; cbn; split; [reflexivity|]).
  - split; [apply beforeSlash_has_no_slash | now apply cut_at_slash_recombines].
  - auto.
Qed.

End QueryFacts.

(** ** The shape of a rejection *)

Section VerdictFacts.
Context {I : Imports} {W : Type}.
Implicit Types (a : buildByStrategy (W := W)) (s : St (W := W)).

Lemma checkAccess_rejection a strategy sar attr s s' (e : error) :
  checkAccess a strategy sar attr s = Done (Some e) s' ->
  exists cause, e = NewForbidden attr cause.
Proof.
  destruct (sarClient a) as [reviewer|] eqn:Ha;
    [|rewrite (checkAccess_nil_reviewer _ _ _ _ _ Ha); discriminate].
  destruct (reviewer sar (world s)) as [[resp err] w] eqn:Hr.
  rewrite (checkAccess_answered _ _ _ _ _ _ _ _ _ Ha Hr).
  destruct err as [cause|]; [intros [= <- _]; eauto|].
  destruct resp as [r|]; [|discriminate].
  destruct (authorization.Allowed (authorization.Status r)); [discriminate|].
  unfold notAllowed. intros [= <- _]. eauto.
Qed.

Ltac direct_rejection :=
  match goal with
  | |- context [resourceForStrategyType ?st] =>
      destruct (resourceForStrategyType st) as [resource [cause|]];
      [unfold ret; intros [= <- _]; eauto|]
  end;
  match goal with
  | |- context [strings.SplitN ?r ?sep ?n] =>
      destruct (strings.SplitN r sep n) as [|resourceType rest]; [discriminate|]
  end;
  apply checkAccess_rejection.

Lemma checkBuildAuthorization_rejection a (build : buildapi.Build) attr s s' (e : error) :
  checkBuildAuthorization a build attr s = Done (Some e) s' ->
  exists cause, e = NewForbidden attr cause.
Proof. unfold checkBuildAuthorization. direct_rejection. Qed.

Lemma checkBuildConfigAuthorization_rejection a (buildConfig : buildapi.BuildConfig)
    attr s s' (e : error) :
  checkBuildConfigAuthorization a buildConfig attr s = Done (Some e) s' ->
  exists cause, e = NewForbidden attr cause.
Proof. unfold checkBuildConfigAuthorization. direct_rejection. Qed.

(** X13. Every rejection leaves the gate in one shape: whatever went wrong
    (a malformed object, a failed lookup or conversion, a reviewer error or a
    reviewer refusal), the error [Admit] returns is
    [admission.NewForbidden] applied to the attributes of the request. *)
Theorem Admit_rejects_with_forbidden_only a attr s s' (e : error) :
  Admit a attr s = Done (Some e) s' ->
  exists cause, e = NewForbidden attr cause.
Proof.
  destruct (checkedResource attr) eqn:Hres;
    [destruct (linkageOnlyUpdate attr) eqn:Hgc|];
    try (rewrite (Admit_bypassed a attr s) by auto; discriminate).
  rewrite (Admit_outside_bypasses a attr s Hres Hgc).
  destruct (admission.GetObject attr) as [obj|obj|obj|kind].
  - apply checkBuildAuthorization_rejection.
  - apply checkBuildConfigAuthorization_rejection.
  - unfold checkBuildRequestAuthorization, bind, ret, panic,
      buildClient_Builds_Get, buildClient_BuildConfigs_Get.
    destruct (_ || _); [|destruct (_ || _); [|intros [= <- _]; eauto]];
      (destruct (buildClient a) as [store|]; [|discriminate]).
    + destruct (Builds_Get _ _ _ _) as [[wire [cause|]] w0]; [intros [= <- _]; eauto|].
      destruct (ConvertBuild wire) as [internal [cause|]]; [intros [= <- _]; eauto|].
      apply checkBuildAuthorization_rejection.
    + destruct (BuildConfigs_Get _ _ _ _) as [[wire [cause|]] w0];
        [intros [= <- _]; eauto|].
      destruct (ConvertBuildConfig wire) as [internal [cause|]];
        [intros [= <- _]; eauto|].
      apply checkBuildConfigAuthorization_rejection.
  - intros [= <- _]. eauto.
Qed.

End VerdictFacts.

(** * Worked examples

    Each property above, applied to concrete requests against the fixtures. *)

Import Fixtures.

Example reviewer_denies_source_build :
  Admit (gate (verdict false))
    (request "build.openshift.io" "builds" "" admission.Create
       (runtime.Build (buildOf "b1" sourceStrategy)) None) start
  = Done (Some (NewForbidden
                  (request "build.openshift.io" "builds" "" admission.Create
                     (runtime.Build (buildOf "b1" sourceStrategy)) None)
                  (Errorf "build strategy Source is not allowed")))
      {| world := 1;
         trace := [SubjectAccessReviewsCreate
                     (AddUserToSAR alice
                        {| authorization.Spec :=
                             {| authorization.ResourceAttributesOf := Some
                                  {| authorization.Namespace := "ns";
                                     authorization.Verb := "create";
                                     authorization.Group := "build.openshift.io";
                                     authorization.Resource := "builds";
                                     authorization.Subresource := "source";
                                     authorization.Name := "b1" |};
                                authorization.User := "";
                                authorization.Groups := [];
                                authorization.Extra := [] |};
                           authorization.Status := zeroStatus |})] |}.
Proof. reflexivity. Qed.

Example indirect_request_looks_up_then_asks :
  trace (final (Admit (SetOpenshiftInternalBuildClient (gate (verdict true))
                         (Some sourceStore))
                  (runRequest "build.openshift.io" "builds" "b1") start))
  = [BuildsGet "ns" "b1";
     SubjectAccessReviewsCreate
       (AddUserToSAR alice
          {| authorization.Spec :=
               {| authorization.ResourceAttributesOf := Some
                    {| authorization.Namespace := "ns";
                       authorization.Verb := "create";
                       authorization.Group := "build.openshift.io";
                       authorization.Resource := "builds";
                       authorization.Subresource := "source";
                       authorization.Name := "b1" |};
                  authorization.User := "";
                  authorization.Groups := [];
                  authorization.Extra := [] |};
             authorization.Status := zeroStatus |})].
Proof. reflexivity. Qed.

Example unwired_gate_panics :
  Admit (NewBuildByStrategy (I := origin) (W := nat))
    (request "" "buildconfigs" "" admission.Create
       (runtime.BuildConfig (buildConfigOf "cfg" "" customStrategy)) None) start
  = Panic start.
Proof. reflexivity. Qed.

Example split_examples :
  strings.SplitN "builds/docker" "/" 2 = ["builds"; "docker"]
  /\ strings.SplitN "builds" "/" 2 = ["builds"]
  /\ strings.SplitN "a/b/c" "/" 2 = ["a"; "b/c"]
  /\ strings.SplitN "a/b/c" "/" (-1) = ["a"; "b"; "c"]
  /\ strings.SplitN "a/b/c" "/" 0 = [].
Proof. repeat split. Qed.

Lemma resourceForStrategyType_first_match_witness :
  resourceForStrategyType (I := origin) (dockerStrategy (Some "SkipLayers"))
  = ({| schema.Group := "build.openshift.io"; schema.Resource := "builds/optimizeddocker" |},
     None)
  /\ resourceForStrategyType (I := origin) (dockerStrategy (Some "None"))
     = ({| schema.Group := "build.openshift.io"; schema.Resource := "builds/docker" |}, None)
  /\ resourceForStrategyType (I := origin) (dockerStrategy None)
     = ({| schema.Group := "build.openshift.io"; schema.Resource := "builds/docker" |}, None)
  /\ resourceForStrategyType (I := origin) customStrategy
     = ({| schema.Group := "build.openshift.io"; schema.Resource := "builds/custom" |}, None)
  /\ resourceForStrategyType (I := origin) noStrategy
     = ({| schema.Group := ""; schema.Resource := "" |},
        Some (Errorf "unrecognized build strategy: build.BuildStrategy{}")).
Proof.
  split; [|split; [|split; [|split]]].
  - destruct (resourceForStrategyType_first_match (I := origin)
                (dockerStrategy (Some "SkipLayers"))) as (H & _).
    apply (H {| buildapi.ImageOptimizationPolicy := Some "SkipLayers" |} "SkipLayers");
      [reflexivity | reflexivity | discriminate].
  - destruct (resourceForStrategyType_first_match (I := origin)
                (dockerStrategy (Some "None"))) as (_ & H & _).
    apply (H {| buildapi.ImageOptimizationPolicy := Some "None" |});
      [reflexivity | right; reflexivity].
  - destruct (resourceForStrategyType_first_match (I := origin)
                (dockerStrategy None)) as (_ & H & _).
    apply (H {| buildapi.ImageOptimizationPolicy := None |});
      [reflexivity | left; reflexivity].
  - destruct (resourceForStrategyType_first_match (I := origin) customStrategy)
      as (_ & _ & H & _).
    apply H; [reflexivity | discriminate].
  - destruct (resourceForStrategyType_first_match (I := origin) noStrategy)
      as (_ & _ & _ & _ & _ & H).
    apply H; reflexivity.
Defined.

Lemma multiple_variants_resolved_by_priority_witness :
  2 <= populatedCount customAndSource
  /\ exists v,
      firstPopulated customAndSource = Some v
      /\ snd (resourceForStrategyType (I := origin) customAndSource) = None
      /\ In (fst (resourceForStrategyType (I := origin) customAndSource))
           (variantResources (I := origin) v)
      /\ strategyTypeString customAndSource = variantName v.
Proof.
  assert (H : 2 <= populatedCount customAndSource) by (cbn; lia).
  split; [exact H|].
  exact (multiple_variants_resolved_by_priority (I := origin) customAndSource H).
Defined.

Lemma ValidateInitialization_reports_missing_collaborator_witness :
  (exists e, ValidateInitialization (NewBuildByStrategy (I := origin) (W := nat)) = Some e)
  /\ ValidateInitialization (gate (verdict true)) = None.
Proof.
  split.
  - apply (ValidateInitialization_reports_missing_collaborator
             (NewBuildByStrategy (I := origin) (W := nat))).
    left; reflexivity.
  - apply (ValidateInitialization_reports_missing_collaborator (gate (verdict true))).
    split; discriminate.
Defined.

Lemma checkAccess_fail_closed_witness :
  checkAccess (gate unreachable) customStrategy someQuery
    (runRequest "" "builds" "b1") start
  = Done (Some (NewForbidden (runRequest "" "builds" "b1")
                  (StatusError "ServiceUnavailable" "no authorizer")))
      (served start 1 (SubjectAccessReviewsCreate someQuery))
  /\ (exists cause,
         checkAccess (gate (verdict false)) customStrategy someQuery
           (runRequest "" "builds" "b1") start
         = Done (Some (NewForbidden (runRequest "" "builds" "b1") cause))
             (served start 1 (SubjectAccessReviewsCreate someQuery)))
  /\ (exists reviewer r w,
         sarClient (gate (verdict true)) = Some reviewer
         /\ reviewer someQuery (world start) = ((Some r, None), w)
         /\ authorization.Allowed (authorization.Status r) = true).
Proof.
  split; [|split].
  - destruct (checkAccess_fail_closed (gate unreachable) customStrategy someQuery
                (runRequest "" "builds" "b1") start) as (H & _).
    apply (H unreachable None); reflexivity.
  - destruct (checkAccess_fail_closed (gate (verdict false)) customStrategy someQuery
                (runRequest "" "builds" "b1") start) as (_ & H & _).
    eapply (H (verdict false)); reflexivity.
  - destruct (checkAccess_fail_closed (gate (verdict true)) customStrategy someQuery
                (runRequest "" "builds" "b1") start) as (_ & _ & H).
    apply (H (served start 1 (SubjectAccessReviewsCreate someQuery))).
    reflexivity.
Defined.

Lemma denial_names_strategy_type_witness :
  checkAccess (gate (verdict false)) customStrategy someQuery
    (runRequest "" "builds" "b1") start
  = Done (Some (NewForbidden (runRequest "" "builds" "b1")
                  (Errorf "build strategy Custom is not allowed")))
      (served start 1 (SubjectAccessReviewsCreate someQuery))
  /\ Contains "build strategy Custom is not allowed" "Custom" = true.
Proof.
  destruct (denial_names_strategy_type (gate (verdict false)) customStrategy someQuery
              (runRequest "" "builds" "b1") start (verdict false)
              {| authorization.Spec := authorization.Spec someQuery;
                 authorization.Status :=
                   {| authorization.Allowed := false; authorization.Reason := "" |} |}
              1 eq_refl eq_refl eq_refl) as (Hdenied & _ & HCustom & _).
  split; [exact Hdenied|].
  apply HCustom; [reflexivity | discriminate].
Defined.

Lemma Admit_allows_linkage_only_update_witness :
  Admit (gate (verdict false))
    (request "build.openshift.io" "builds" "" admission.Update
       (runtime.Build (ownedBuild "b1" customStrategy))
       (Some (runtime.Build (buildOf "b1" customStrategy))))
    start
  = Done None start.
Proof.
  apply (Admit_allows_linkage_only_update (gate (verdict false))
           (request "build.openshift.io" "builds" "" admission.Update
              (runtime.Build (ownedBuild "b1" customStrategy))
              (Some (runtime.Build (buildOf "b1" customStrategy))))
           (runtime.Build (buildOf "b1" customStrategy)) start);
    reflexivity.
Defined.

Lemma Admit_allows_details_and_other_resources_witness :
  Admit (gate (verdict false))
    (request "" "builds" "details" admission.Update
       (runtime.Build (buildOf "b1" customStrategy)) None)
    start
  = Done None start
  /\ Admit (NewBuildByStrategy (I := origin) (W := nat))
       (request "" "pods" "" admission.Create
          (runtime.Build (buildOf "b1" customStrategy)) None)
       start
     = Done None start.
Proof.
  split.
  - apply (Admit_allows_details_and_other_resources (gate (verdict false))).
    left. split; reflexivity.
  - apply (Admit_allows_details_and_other_resources
             (NewBuildByStrategy (I := origin) (W := nat))).
    right. split; reflexivity.
Defined.

Lemma permission_query_scoped_to_create_witness :
  (exists sar,
      trace (final (checkBuildAuthorization (gate (verdict true))
                      (buildOf "b1" sourceStrategy)
                      (request "" "builds" "" admission.Update
                         (runtime.Build (buildOf "b1" sourceStrategy)) None)
                      start))
      = [SubjectAccessReviewsCreate sar]
      /\ authorization.ResourceAttributesOf (authorization.Spec sar)
         = Some {| authorization.Namespace := "ns";
                   authorization.Verb := "create";
                   authorization.Group := "build.openshift.io";
                   authorization.Resource := "builds";
                   authorization.Subresource := "source";
                   authorization.Name := "b1" |})
  /\ (exists sar,
         trace (final (checkBuildConfigAuthorization (gate (verdict true))
                         (buildConfigOf "cfg" "cfg-" (dockerStrategy (Some "SkipLayers")))
                         (request "" "builds" "" admission.Update
                            (runtime.Build (buildOf "b1" sourceStrategy)) None)
                         start))
         = [SubjectAccessReviewsCreate sar]
         /\ authorization.ResourceAttributesOf (authorization.Spec sar)
            = Some {| authorization.Namespace := "ns";
                      authorization.Verb := "create";
                      authorization.Group := "build.openshift.io";
                      authorization.Resource := "builds";
                      authorization.Subresource := "optimizeddocker";
                      authorization.Name := "cfg-" |}).
Proof.
  exact (permission_query_scoped_to_create (gate (verdict true))
           (request "" "builds" "" admission.Update
              (runtime.Build (buildOf "b1" sourceStrategy)) None)
           start (verdict true)
           (buildOf "b1" sourceStrategy)
           (buildConfigOf "cfg" "cfg-" (dockerStrategy (Some "SkipLayers")))
           (Resource (I := origin) "builds/source")
           (Resource (I := origin) "builds/optimizeddocker")
           eq_refl eq_refl eq_refl).
Defined.

Lemma buildRequest_resolution_failures_witness :
  (checkBuildRequestAuthorization (gate (verdict true))
     {| buildapi.brObjectMeta := emptyMeta "missing" |}
     (runRequest "build.openshift.io" "builds" "missing") start
   = Done (Some (NewForbidden (runRequest "build.openshift.io" "builds" "missing")
                   (StatusError "NotFound" "missing")))
       (served start 1 (BuildsGet "ns" "missing"))
   /\ reviewerCalls
        (final (checkBuildRequestAuthorization (gate (verdict true))
                  {| buildapi.brObjectMeta := emptyMeta "missing" |}
                  (runRequest "build.openshift.io" "builds" "missing") start))
      = [])
  /\ (checkBuildRequestAuthorization (brokenGate (verdict true))
        {| buildapi.brObjectMeta := emptyMeta "cfg" |}
        (runRequest "" "buildconfigs" "cfg") start
      = Done (Some (NewForbidden (runRequest "" "buildconfigs" "cfg")
                      (Errorf "no conversion")))
          (served start 1 (BuildConfigsGet "ns" "cfg"))
      /\ reviewerCalls
           (final (checkBuildRequestAuthorization (brokenGate (verdict true))
                     {| buildapi.brObjectMeta := emptyMeta "cfg" |}
                     (runRequest "" "buildconfigs" "cfg") start))
         = [])
  /\ checkBuildRequestAuthorization (gate (verdict true))
       {| buildapi.brObjectMeta := emptyMeta "p" |}
       (runRequest "" "pods" "p") start
     = Done (Some (NewForbidden (runRequest "" "pods" "p")
                     (Errorf "Unknown resource type /v1, Resource=pods for BuildRequest")))
         start.
Proof.
  split; [|split].
  - destruct (buildRequest_resolution_failures (gate (verdict true))
                {| buildapi.brObjectMeta := emptyMeta "missing" |}
                (runRequest "build.openshift.io" "builds" "missing") start)
      as (H & _).
    apply (H emptyStore (buildOf "" noStrategy)
             (Some (StatusError "NotFound" "missing")) 1);
      [reflexivity | reflexivity | reflexivity | left; reflexivity].
  - destruct (buildRequest_resolution_failures (brokenGate (verdict true))
                {| buildapi.brObjectMeta := emptyMeta "cfg" |}
                (runRequest "" "buildconfigs" "cfg") start)
      as (_ & H & _).
    apply (H fullStore (buildConfigOf "cfg" "" sourceStrategy) None 1);
      [reflexivity | reflexivity | reflexivity | right; split; reflexivity].
  - destruct (buildRequest_resolution_failures (gate (verdict true))
                {| buildapi.brObjectMeta := emptyMeta "p" |}
                (runRequest "" "pods" "p") start)
      as (_ & _ & H).
    apply H; reflexivity.
Defined.

Lemma unknown_resource_case_unreachable_through_Admit_witness :
  (Admit (gate (verdict true)) (runRequest "" "builds" "missing") start = Done None start
   \/ (isInstanceResource (I := origin) {| schema.Group := ""; schema.Resource := "builds" |}
       || isDefinitionResource (I := origin)
            {| schema.Group := ""; schema.Resource := "builds" |} = true
       /\ Admit (gate (verdict true)) (runRequest "" "builds" "missing") start
          = checkBuildRequestAuthorization (gate (verdict true))
              {| buildapi.brObjectMeta := emptyMeta "missing" |}
              (runRequest "" "builds" "missing") start
       /\ checkBuildRequestAuthorization (gate (verdict true))
            {| buildapi.brObjectMeta := emptyMeta "missing" |}
            (runRequest "" "builds" "missing") start
          <> Done (Some (unknownResourceType (I := origin) (runRequest "" "builds" "missing"))) start))
  /\ Admit (gate (verdict true)) (runRequest "" "builds" "missing") start
     <> Done (Some (unknownResourceType (I := origin) (runRequest "" "builds" "missing"))) start.
Proof.
  exact (unknown_resource_case_unreachable_through_Admit (gate (verdict true))
           (runRequest "" "builds" "missing")
           {| buildapi.brObjectMeta := emptyMeta "missing" |} start eq_refl).
Defined.

Lemma Admit_rejects_unrecognized_object_witness :
  Admit (gate (verdict true))
    (request "build.openshift.io" "builds" "" admission.Create (runtime.Other "&core.Pod{}")
       None)
    start
  = Done (Some (NewForbidden
                  (request "build.openshift.io" "builds" "" admission.Create
                     (runtime.Other "&core.Pod{}") None)
                  (Errorf "unrecognized request object &core.Pod{}")))
      start.
Proof.
  exact (Admit_rejects_unrecognized_object (gate (verdict true))
           (request "build.openshift.io" "builds" "" admission.Create
              (runtime.Other "&core.Pod{}") None)
           start "&core.Pod{}" eq_refl eq_refl eq_refl).
Defined.

Lemma details_of_definition_resource_is_checked_witness :
  Admit (gate (verdict false))
    (request "" "buildconfigs" "details" admission.Update
       (runtime.BuildConfig (buildConfigOf "cfg" "" customStrategy)) None)
    start
  = checkBuildConfigAuthorization (gate (verdict false))
      (buildConfigOf "cfg" "" customStrategy)
      (request "" "buildconfigs" "details" admission.Update
         (runtime.BuildConfig (buildConfigOf "cfg" "" customStrategy)) None)
      start.
Proof.
  exact (details_of_definition_resource_is_checked (gate (verdict false))
           (request "" "buildconfigs" "details" admission.Update
              (runtime.BuildConfig (buildConfigOf "cfg" "" customStrategy)) None)
           start (buildConfigOf "cfg" "" customStrategy)
           eq_refl eq_refl eq_refl eq_refl).
Defined.

Lemma Admit_rejects_unpopulated_strategy_witness :
  Admit (NewBuildByStrategy (I := origin) (W := nat))
    (request "" "builds" "" admission.Create (runtime.Build (buildOf "b1" noStrategy)) None)
    start
  = Done (Some (NewForbidden
                  (request "" "builds" "" admission.Create
                     (runtime.Build (buildOf "b1" noStrategy)) None)
                  (Errorf "unrecognized build strategy: build.BuildStrategy{}")))
      start.
Proof.
  apply (Admit_rejects_unpopulated_strategy (NewBuildByStrategy (I := origin) (W := nat))
           (request "" "builds" "" admission.Create
              (runtime.Build (buildOf "b1" noStrategy)) None)
           start noStrategy);
    try reflexivity.
  left. exists (buildOf "b1" noStrategy). split; reflexivity.
Defined.

Lemma build_and_buildConfig_checked_alike_witness :
  checkBuildAuthorization (gate (verdict false)) (buildOf "b1" sourceStrategy)
    (runRequest "" "builds" "b1") start
  = checkBuildConfigAuthorization (gate (verdict false))
      (buildConfigOf "b1" "" sourceStrategy) (runRequest "" "builds" "b1") start.
Proof.
  exact (build_and_buildConfig_checked_alike (gate (verdict false))
           (runRequest "" "builds" "b1") start
           (buildOf "b1" sourceStrategy) (buildConfigOf "b1" "" sourceStrategy)
           eq_refl eq_refl).
Defined.

Lemma resolved_request_checked_as_direct_object_witness :
  checkBuildRequestAuthorization
    (SetOpenshiftInternalBuildClient (gate (verdict false)) (Some sourceStore))
    {| buildapi.brObjectMeta := emptyMeta "b1" |}
    (runRequest "" "builds" "b1") start
  = checkBuildAuthorization
      (SetOpenshiftInternalBuildClient (gate (verdict false)) (Some sourceStore))
      (buildOf "b1" sourceStrategy) (runRequest "" "builds" "b1")
      (served start 1 (BuildsGet "ns" "b1"))
  /\ checkBuildRequestAuthorization
       (SetOpenshiftInternalBuildClient (gate (verdict false)) (Some sourceStore))
       {| buildapi.brObjectMeta := emptyMeta "cfg" |}
       (runRequest "build.openshift.io" "buildconfigs" "cfg") start
     = checkBuildConfigAuthorization
         (SetOpenshiftInternalBuildClient (gate (verdict false)) (Some sourceStore))
         (buildConfigOf "cfg" "" sourceStrategy)
         (runRequest "build.openshift.io" "buildconfigs" "cfg")
         (served start 1 (BuildConfigsGet "ns" "cfg")).
Proof.
  split.
  - destruct (resolved_request_checked_as_direct_object
                (SetOpenshiftInternalBuildClient (gate (verdict false)) (Some sourceStore))
                {| buildapi.brObjectMeta := emptyMeta "b1" |}
                (runRequest "" "builds" "b1") start sourceStore eq_refl) as (H & _).
    apply (H (buildOf "b1" sourceStrategy) 1 (buildOf "b1" sourceStrategy));
      reflexivity.
  - destruct (resolved_request_checked_as_direct_object
                (SetOpenshiftInternalBuildClient (gate (verdict false)) (Some sourceStore))
                {| buildapi.brObjectMeta := emptyMeta "cfg" |}
                (runRequest "build.openshift.io" "buildconfigs" "cfg") start
                sourceStore eq_refl) as (_ & H).
    apply (H (buildConfigOf "cfg" "" sourceStrategy) 1
             (buildConfigOf "cfg" "" sourceStrategy));
      reflexivity.
Defined.

Lemma Admit_allows_only_by_bypass_or_review_witness :
  exists reviewer sar r w s1,
    sarClient (gate (verdict true)) = Some reviewer
    /\ reviewer sar (world s1) = ((Some r, None), w)
    /\ authorization.Allowed (authorization.Status r) = true
    /\ reviewerCalls s1 = reviewerCalls start
    /\ Admit (gate (verdict true))
         (request "" "builds" "" admission.Create
            (runtime.Build (buildOf "b1" sourceStrategy)) None)
         start
       = Done None (served s1 w (SubjectAccessReviewsCreate sar)).
Proof.
  destruct (Admit_allows_only_by_bypass_or_review (gate (verdict true))
              (request "" "builds" "" admission.Create
                 (runtime.Build (buildOf "b1" sourceStrategy)) None)
              start
              (final (Admit (gate (verdict true))
                        (request "" "builds" "" admission.Create
                           (runtime.Build (buildOf "b1" sourceStrategy)) None)
                        start))
              eq_refl)
    as [[_ [Hres | Hgc]] | (_ & _ & reviewer & sar & r & w & s1 & Ha & Hr & Hal & Hc & Hs)].
  - discriminate Hres.
  - discriminate Hgc.
  - exists reviewer, sar, r, w, s1. repeat (split; [assumption|]).
    now rewrite <- Hs.
Defined.


Lemma identifier_determines_variant_witness :
  firstPopulated customStrategy = firstPopulated customAndSource
  /\ (fst (resourceForStrategyType (I := origin) customStrategy)
      = Resource (I := origin) "builds/optimizeddocker" ->
      exists d policy,
        buildapi.DockerStrategy customStrategy = Some d
        /\ buildapi.ImageOptimizationPolicy d = Some policy
        /\ policy <> "None").
Proof.
  apply (identifier_determines_variant (I := origin) customStrategy customAndSource).
  - repeat constructor; cbn; intuition discriminate.
  - reflexivity.
  - reflexivity.
Defined.

Lemma query_cuts_resource_string_losslessly_witness :
  exists sar ra,
    trace (final (checkBuildAuthorization (gate (verdict true))
                    (buildOf "b1" sourceStrategy) (runRequest "" "builds" "b1") start))
    = [SubjectAccessReviewsCreate sar]
    /\ authorization.ResourceAttributesOf (authorization.Spec sar) = Some ra
    /\ authorization.Group ra = "build.openshift.io"
    /\ hasSlash (authorization.Resource ra) = false
    /\ authorization.Resource ra ++ "/" ++ authorization.Subresource ra = "builds/source".
Proof.
  exact (query_cuts_resource_string_losslessly (gate (verdict true))
           (runRequest "" "builds" "b1") start (verdict true)
           (buildOf "b1" sourceStrategy) (Resource (I := origin) "builds/source")
           eq_refl eq_refl).
Defined.

Lemma Admit_rejects_with_forbidden_only_witness :
  Admit (gate (verdict true)) (runRequest "" "builds" "missing") start
  = Done (Some (NewForbidden (runRequest "" "builds" "missing")
                  (StatusError "NotFound" "missing")))
      (served start 1 (BuildsGet "ns" "missing"))
  /\ exists cause,
      NewForbidden (runRequest "" "builds" "missing") (StatusError "NotFound" "missing")
      = NewForbidden (runRequest "" "builds" "missing") cause.
Proof.
  split; [reflexivity|].
  exact (Admit_rejects_with_forbidden_only (gate (verdict true))
           (runRequest "" "builds" "missing") start
           (served start 1 (BuildsGet "ns" "missing"))
           (NewForbidden (runRequest "" "builds" "missing")
              (StatusError "NotFound" "missing"))
           eq_refl).
Defined.
